(** * URL to Markdown node: a shallow embedding of [Url2Markdown.execute]

    The node fetches a page, hands the markup to the readability
    extractor, converts the extracted content with the turndown service
    (with the node's own override rules for links and images), optionally
    prepends a YAML frontmatter block and pushes one JSON record per input
    item.  The embedding follows the source statement by statement; the
    network, the readability extractor, the HTML parser and the built-in
    rule table of the turndown package are parameters. *)

From Stdlib Require Import List ZArith NArith Bool Lia String Ascii DecimalString.
Import ListNotations.

Set Implicit Arguments.
Set Warnings "-register-all".

(* ===================================================================== *)
(** ** JavaScript strings *)
(* ===================================================================== *)

Module JS.

(** A JavaScript string is a sequence of UTF-16 code units; [length] is the
    number of code units, as [String.prototype.length] reports it. *)
Definition jsstring := list N.

(** An ASCII literal of the source. *)
Definition js (s : string) : jsstring :=
  map N_of_ascii (list_ascii_of_string s).

Fixpoint str_eqb (a b : jsstring) : bool :=
  match a, b with
  | [], [] => true
  | x :: a', y :: b' => N.eqb x y && str_eqb a' b'
  | _, _ => false
  end.

(** Code units used by the source. *)
Definition LF : N := 10.
Definition SPACE : N := 32.
Definition QUOTE : N := 34.       (* the double quote *)
Definition BACKSLASH : N := 92.

(** The class [\s] of regular expressions, which is also what
    [String.prototype.trim] strips: WhiteSpace and LineTerminator. *)
Definition isWhitespace (c : N) : bool :=
  match c with
  | 9 | 10 | 11 | 12 | 13 | 32 | 160 | 5760 | 8232 | 8233 | 8239 | 8287
  | 12288 | 65279 => true
  | _ => (8192 <=? c) && (c <=? 8202)
  end%N.

(** The class [[ \t\r\n]]. *)
Definition isAsciiWhitespace (c : N) : bool :=
  match c with
  | 9 | 10 | 13 | 32 => true
  | _ => false
  end%N.

(** The class [[\t\r\n]]. *)
Definition isTabOrNewline (c : N) : bool :=
  match c with
  | 9 | 10 | 13 => true
  | _ => false
  end%N.

Fixpoint dropWhile (p : N -> bool) (s : jsstring) : jsstring :=
  match s with
  | [] => []
  | c :: s' => if p c then dropWhile p s' else s
  end.

Fixpoint takeWhile (p : N -> bool) (s : jsstring) : jsstring :=
  match s with
  | [] => []
  | c :: s' => if p c then c :: takeWhile p s' else []
  end.

Definition dropWhileEnd (p : N -> bool) (s : jsstring) : jsstring :=
  rev (dropWhile p (rev s)).

Definition takeWhileEnd (p : N -> bool) (s : jsstring) : jsstring :=
  rev (takeWhile p (rev s)).

(** [s.toLowerCase()], for the letters A to Z.  The node and the converter
    call it on element names only, to compare the result with the names
    [a], [img] and the like; no other code unit has one of those letters
    as its lower case, so the comparisons come out as in JavaScript. *)
Definition toLowerCase (s : jsstring) : jsstring :=
  map (fun c => if (65 <=? c)%N && (c <=? 90)%N then (c + 32)%N else c) s.

(** [s.trim()] *)
Definition trim (s : jsstring) : jsstring :=
  dropWhileEnd isWhitespace (dropWhile isWhitespace s).

(** [s.replace(/"/g, '\\"')]: every double quote becomes backslash, quote. *)
Definition escapeQuotes (s : jsstring) : jsstring :=
  flat_map (fun c => if N.eqb c QUOTE then [BACKSLASH; QUOTE] else [c]) s.

(** [s.replace(/\n/g, ' ')]: every line feed becomes one space. *)
Definition newlinesToSpaces (s : jsstring) : jsstring :=
  map (fun c => if N.eqb c LF then SPACE else c) s.

(** [lines.join(sep)] *)
Fixpoint join (sep : jsstring) (lines : list jsstring) : jsstring :=
  match lines with
  | [] => []
  | [l] => l
  | l :: rest => l ++ sep ++ join sep rest
  end.

(** Truthiness of a value that is a string, [null] or [undefined]. *)
Definition truthy (v : option jsstring) : bool :=
  match v with
  | Some (_ :: _) => true
  | _ => false
  end.

(** The number of the timeout parameter: a whole number of seconds, or
    [NaN].  Fractional and infinite values are outside the model. *)
Inductive number :=
| Finite (z : Z)
| NaN.

(** [`${z}`] for a whole number of a magnitude below 10^21, which
    JavaScript prints in full, all digits; from 10^21 on it prints an
    exponent.  The theorems that print a number carry that bound
    ([printedInFull]). *)
Definition numberToString (z : Z) : jsstring :=
  js (NilZero.string_of_int (Z.to_int z)).

Definition printedInFull (z : Z) : Prop := (Z.abs z < 10 ^ 21)%Z.

(** [(v as number) || d], for a truthy default [d]: [undefined], [0] and
    [NaN] are falsy. *)
Definition falsyNumber (v : option number) : bool :=
  match v with
  | Some (Finite z) => Z.eqb z 0
  | Some NaN => true
  | None => true
  end.

Definition numberOr (v : option number) (d : Z) : Z :=
  match v with
  | Some (Finite z) => if Z.eqb z 0 then d else z
  | _ => d
  end.

End JS.
Import JS.


(* ===================================================================== *)
(** ** Document trees *)
(* ===================================================================== *)

Module Dom.

(** A node of the parsed document.  [nodeName] is the name as the DOM
    reports it: in upper case for an HTML element ([A], [IMG]), as written
    for an element of a foreign namespace (an SVG [a]). *)
Inductive Node :=
| Text (nodeValue : jsstring)
| Comment (data : jsstring)
| Element (nodeName : jsstring) (attributes : list (jsstring * jsstring))
          (childNodes : list Node).

(** [node.getAttribute(name)]: [null] when the attribute is absent. *)
Fixpoint lookupAttribute (name : jsstring) (attrs : list (jsstring * jsstring))
  : option jsstring :=
  match attrs with
  | [] => None
  | (k, v) :: rest => if str_eqb k name then Some v else lookupAttribute name rest
  end.

Definition getAttribute (n : Node) (name : jsstring) : option jsstring :=
  match n with
  | Element _ attrs _ => lookupAttribute name attrs
  | _ => None
  end.

(** [element.textContent]: the text of the descendants, comments skipped. *)
Fixpoint textContent (n : Node) : jsstring :=
  match n with
  | Text v => v
  | Comment _ => []
  | Element _ _ kids => flat_map textContent kids
  end.

(** [node.nodeName.toLowerCase() === name], the test of a filter that is
    given as a tag name. *)
Definition isElementNamed (name : jsstring) (n : Node) : bool :=
  match n with
  | Element nm _ _ => str_eqb (toLowerCase nm) name
  | _ => false
  end.

(** [node.nodeName === name] *)
Definition hasNodeName (name : jsstring) (n : Node) : bool :=
  match n with
  | Element nm _ _ => str_eqb nm name
  | _ => false
  end.

(** Some descendant of [n] is an element whose name is in [names]
    ([getElementsByTagName] finds one). *)
Fixpoint hasDescendant (names : list jsstring) (n : Node) : bool :=
  match n with
  | Element _ _ kids =>
      existsb (fun k =>
                 match k with
                 | Element nm _ _ => existsb (str_eqb nm) names
                 | _ => false
                 end || hasDescendant names k) kids
  | _ => false
  end.

(** The tree with the attribute list of every element whose [nodeName] is
    [tag] replaced by [g] of it. *)
Fixpoint mapAttributesOf (tag : jsstring)
         (g : list (jsstring * jsstring) -> list (jsstring * jsstring))
         (n : Node) : Node :=
  match n with
  | Element nm attrs kids =>
      Element nm (if str_eqb nm tag then g attrs else attrs)
              (map (mapAttributesOf tag g) kids)
  | _ => n
  end.

End Dom.
Import Dom.

(* ===================================================================== *)
(** ** The turndown service *)
(* ===================================================================== *)

(** The converter is the turndown package.  Its driver -- rule lookup,
    the bottom-up walk, the joining of replacements, the final trimming --
    is written out here, because the node changes its behaviour only by
    adding rules; the package's HTML parser, its escaping of text and its
    built-in CommonMark rule table stay parameters. *)
Module Turndown.

Inductive HeadingStyle := atx | setext.
Inductive CodeBlockStyle := fenced | indented.

Record Options := {
  headingStyle : HeadingStyle;
  codeBlockStyle : CodeBlockStyle
}.

(** A rule: a filter on nodes, a replacement computed from the converted
    content of the children and the node, and an optional text appended to
    the whole output. *)
Record Rule := {
  filter : Node -> bool;
  replacement : jsstring -> Node -> jsstring;
  append : option jsstring
}.

(** A filter given as a tag name, e.g. [filter: 'a']: it takes the
    elements whose name in lower case is that name. *)
Definition tagFilter (name : string) : Node -> bool :=
  isElementNamed (js name).

Definition blockElements : list jsstring :=
  map js ["ADDRESS"; "ARTICLE"; "ASIDE"; "AUDIO"; "BLOCKQUOTE"; "BODY";
          "CANVAS"; "CENTER"; "DD"; "DIR"; "DIV"; "DL"; "DT"; "FIELDSET";
          "FIGCAPTION"; "FIGURE"; "FOOTER"; "FORM"; "FRAMESET"; "H1"; "H2";
          "H3"; "H4"; "H5"; "H6"; "HEADER"; "HGROUP"; "HR"; "HTML";
          "ISINDEX"; "LI"; "MAIN"; "MENU"; "NAV"; "NOFRAMES"; "NOSCRIPT";
          "OL"; "OUTPUT"; "P"; "PRE"; "SECTION"; "TABLE"; "TBODY"; "TD";
          "TFOOT"; "TH"; "THEAD"; "TR"; "UL"]%string.

Definition voidElements : list jsstring :=
  map js ["AREA"; "BASE"; "BR"; "COL"; "COMMAND"; "EMBED"; "HR"; "IMG";
          "INPUT"; "KEYGEN"; "LINK"; "META"; "PARAM"; "SOURCE"; "TRACK";
          "WBR"]%string.

Definition meaningfulWhenBlankElements : list jsstring :=
  map js ["A"; "TABLE"; "THEAD"; "TBODY"; "TFOOT"; "TH"; "TD"; "IFRAME";
          "SCRIPT"; "AUDIO"; "VIDEO"]%string.

(** [names.indexOf(node.nodeName) >= 0], for the tables above. *)
Definition isOneOf (names : list jsstring) (n : Node) : bool :=
  match n with
  | Element nm _ _ => existsb (str_eqb nm) names
  | _ => false
  end.

Definition isBlock : Node -> bool := isOneOf blockElements.
Definition isVoid : Node -> bool := isOneOf voidElements.
Definition isMeaningfulWhenBlank : Node -> bool :=
  isOneOf meaningfulWhenBlankElements.

(** A node is blank when it is neither void nor meaningful when blank, its
    text is all white space, and it has no void or meaningful descendant. *)
Definition isBlank (n : Node) : bool :=
  negb (isVoid n) && negb (isMeaningfulWhenBlank n)
  && forallb isWhitespace (textContent n)
  && negb (hasDescendant voidElements n)
  && negb (hasDescendant meaningfulWhenBlankElements n).

(** The edges of a text: its leading white space and, when the text is not
    all white space, its trailing white space, each split into the ASCII
    run at the outer end and the rest. *)
Record Edges := {
  leading : jsstring; leadingAscii : jsstring; leadingNonAscii : jsstring;
  trailing : jsstring; trailingNonAscii : jsstring; trailingAscii : jsstring
}.

Definition edgeWhitespace (s : jsstring) : Edges :=
  let lead := takeWhile isWhitespace s in
  let leadA := takeWhile isAsciiWhitespace s in
  let rest := dropWhile isWhitespace s in
  let trail := takeWhileEnd isWhitespace rest in
  let trailA := takeWhileEnd isAsciiWhitespace rest in
  {| leading := lead;
     leadingAscii := leadA;
     leadingNonAscii := skipn (List.length leadA) lead;
     trailing := trail;
     trailingNonAscii := firstn (List.length trail - List.length trailA) trail;
     trailingAscii := trailA |}.

Inductive Side := left | right.

Definition endsWithSpace (s : jsstring) : bool :=
  match rev s with
  | c :: _ => N.eqb c SPACE
  | [] => false
  end.

Definition startsWithSpace (s : jsstring) : bool :=
  match s with
  | c :: _ => N.eqb c SPACE
  | [] => false
  end.

Definition isFlankedByWhitespace (side : Side) (sibling : option Node) : bool :=
  let test := match side with left => endsWithSpace | right => startsWithSpace end in
  match sibling with
  | Some (Text v) => test v
  | Some (Element nm a k) =>
      if isBlock (Element nm a k) then false else test (textContent (Element nm a k))
  | _ => false
  end.

Definition nonEmpty (s : jsstring) : bool :=
  match s with [] => false | _ => true end.

(** The white space that is moved from the inside of an inline element to
    its outside. *)
Definition flankingWhitespace (prev next : option Node) (n : Node)
  : jsstring * jsstring :=
  if isBlock n then ([], [])
  else
    let e := edgeWhitespace (textContent n) in
    (if nonEmpty (leadingAscii e) && isFlankedByWhitespace left prev
     then leadingNonAscii e else leading e,
     if nonEmpty (trailingAscii e) && isFlankedByWhitespace right next
     then trailingNonAscii e else trailing e).

Definition isLF (c : N) : bool := N.eqb c LF.

Definition trimLeadingNewlines (s : jsstring) : jsstring := dropWhile isLF s.
Definition trimTrailingNewlines (s : jsstring) : jsstring := dropWhileEnd isLF s.

(** [join(output, replacement)]: the two texts with at most two line feeds
    between them, as many as the larger of the two runs they meet with. *)
Definition joinOutput (output replacement : jsstring) : jsstring :=
  let s1 := trimTrailingNewlines output in
  let s2 := trimLeadingNewlines replacement in
  let nls := Nat.max (List.length output - List.length s1) (List.length replacement - List.length s2) in
  s1 ++ firstn nls [LF; LF] ++ s2.

Definition blankReplacement (content : jsstring) (n : Node) : jsstring :=
  if isBlock n then [LF; LF] else [].

Definition defaultReplacement (content : jsstring) (n : Node) : jsstring :=
  if isBlock n then [LF; LF] ++ content ++ [LF; LF] else content.

Definition blankRule : Rule :=
  {| filter := fun _ => true; replacement := blankReplacement; append := None |}.

Definition defaultRule : Rule :=
  {| filter := fun _ => true; replacement := defaultReplacement; append := None |}.

(** [rules.forNode(node)]: the blank rule for a blank node, else the first
    rule of the array whose filter accepts the node, else the default rule
    (the node never calls [keep] or [remove], so those lists are empty). *)
Definition forNode (rules : list Rule) (n : Node) : Rule :=
  if isBlank n then blankRule
  else match find (fun r => filter r n) rules with
       | Some r => r
       | None => defaultRule
       end.

Section Service.

(** The package's escaping of Markdown syntax in text nodes. *)
Variable escape : jsstring -> jsstring.

(** The package's CommonMark rules for the given options, in the order of
    its rule array. *)
Variable commonmarkRules : Options -> list Rule.

(** The package's parser: the children of the root node of the parsed and
    white-space-collapsed input. *)
Variable parseHTML : jsstring -> list Node.

Record TurndownService := {
  options : Options;
  rules : list Rule
}.

(** [new TurndownService(options)] *)
Definition newTurndownService (o : Options) : TurndownService :=
  {| options := o; rules := commonmarkRules o |}.

(** [service.addRule(key, rule)]: the rule goes to the front of the
    array; the key is not used for lookup. *)
Definition addRule (key : string) (r : Rule) (s : TurndownService)
  : TurndownService :=
  {| options := options s; rules := r :: rules s |}.

Section Walk.
Variable service : TurndownService.

(** [replacementForNode] and [process], for a node with its siblings;
    [inCode] is the [isCode] flag of the parent. *)
Fixpoint replacementFor (inCode : bool) (prev next : option Node)
         (n : Node) {struct n} : jsstring :=
  match n with
  | Text v => if inCode then v else escape v
  | Comment _ => []
  | Element nm attrs kids =>
      let isCode := str_eqb nm (js "CODE") || inCode in
      let content :=
        (fix process (prev : option Node) (ks : list Node)
             (output : jsstring) {struct ks} : jsstring :=
           match ks with
           | [] => output
           | k :: rest =>
               process (Some k) rest
                 (joinOutput output
                    (replacementFor isCode prev (hd_error rest) k))
           end) None kids [] in
      let rule := forNode (rules service) n in
      let whitespace := flankingWhitespace prev next n in
      let content :=
        if nonEmpty (fst whitespace) || nonEmpty (snd whitespace)
        then trim content else content in
      fst whitespace ++ replacement rule content n ++ snd whitespace
  end.

Fixpoint processFrom (inCode : bool) (prev : option Node) (ks : list Node)
         (output : jsstring) : jsstring :=
  match ks with
  | [] => output
  | k :: rest =>
      processFrom inCode (Some k) rest
        (joinOutput output (replacementFor inCode prev (hd_error rest) k))
  end.

(** [process(parentNode)] for the children [ks] of a parent. *)
Definition process (inCode : bool) (ks : list Node) : jsstring :=
  processFrom inCode None ks [].

(** [postProcess(output)]: the rules' appendices, then leading tabs and
    line breaks and trailing white space are stripped. *)
Definition postProcess (output : jsstring) : jsstring :=
  let output :=
    fold_left (fun out r =>
                 match append r with
                 | Some a => joinOutput out a
                 | None => out
                 end) (rules service) output in
  dropWhileEnd isWhitespace (dropWhile isTabOrNewline output).

(** [service.turndown(input)] *)
Definition turndown (input : jsstring) : jsstring :=
  match input with
  | [] => []
  | _ => postProcess (process false (parseHTML input))
  end.

End Walk.
End Service.

End Turndown.

(* ===================================================================== *)
(** ** The node: [Url2Markdown.execute] *)
(* ===================================================================== *)

Module Url2Markdown.

Import Turndown.

Inductive ImageHandling := include | altText | remove.

(** The [options] collection of an item; [None] is an option the caller
    left out. *)
Record NodeOptions := {
  timeout : option number;
  includeLinks : option bool;
  imageHandling : option ImageHandling;
  headingStyle : option HeadingStyle;
  codeBlockStyle : option CodeBlockStyle;
  includeFrontmatter : option bool
}.

(** The parameters of one input item, as [getNodeParameter] resolves them. *)
Record Item := {
  url : option jsstring;
  options : NodeOptions
}.

(** What [Readability.parse()] returns when it finds an article. *)
Record Article := {
  title : option jsstring;
  byline : option jsstring;
  excerpt : option jsstring;
  siteName : option jsstring;
  content : jsstring
}.

(** A thrown value: an error of the node, another [Error] with its name and
    message, or a value that is not an [Error], with its [String(...)]. *)
Inductive Thrown :=
| NodeOperationError (message : jsstring) (itemIndex : nat)
| OtherError (name message : jsstring)
| NonError (text : jsstring).

(** [error instanceof Error ? error.message : String(error)] *)
Definition messageOf (e : Thrown) : jsstring :=
  match e with
  | NodeOperationError m _ => m
  | OtherError _ m => m
  | NonError t => t
  end.

(** [fetchError instanceof Error && fetchError.name === 'AbortError'] *)
Definition isAbortError (e : Thrown) : bool :=
  match e with
  | OtherError nm _ => str_eqb nm (js "AbortError")
  | _ => false
  end.

(** The rejection of a fetch whose signal was aborted. *)
Definition abortError : Thrown :=
  OtherError (js "AbortError") (js "This operation was aborted").

Record Response := {
  status : Z;
  statusText : jsstring;
  responseText : Thrown + jsstring;   (* [await response.text()] *)
  responseUrl : jsstring              (* the URL after redirects *)
}.

(** [response.ok] *)
Definition ok (r : Response) : bool :=
  (200 <=? status r)%Z && (status r <=? 299)%Z.

(** What the network does with a request: after [latency] milliseconds it
    answers or fails. *)
Inductive NetReply :=
| Responds (latency : Z) (r : Response)
| Fails (latency : Z) (e : Thrown).

Definition latencyOf (r : NetReply) : Z :=
  match r with
  | Responds l _ => l
  | Fails l _ => l
  end.

(** The time a timer set with [setTimeout(f, delay)] waits: a delay below
    1 ms or above 2^31-1 ms is turned into 1 ms. *)
Definition TIMEOUT_MAX : Z := 2147483647.

Definition timerDelay (delay : Z) : Z :=
  if (delay <? 1)%Z || (TIMEOUT_MAX <? delay)%Z then 1%Z else delay.

(** An outbound request, as the node issues it. *)
Record Request := {
  requestUrl : jsstring;
  requestHeaders : list (jsstring * jsstring);
  abortAfterMs : Z
}.

Definition browserHeaders : list (jsstring * jsstring) :=
  [ (js "User-Agent",
     js "Mozilla/5.0 (Windows NT 10.0; Win64; x64) AppleWebKit/537.36 (KHTML, like Gecko) Chrome/120.0.0.0 Safari/537.36");
    (js "Accept",
     js "text/html,application/xhtml+xml,application/xml;q=0.9,*/*;q=0.8");
    (js "Accept-Language", js "ja,en-US;q=0.9,en;q=0.8") ].

(** The successful record and the best-effort error record. *)
Inductive Json :=
| Success (url : jsstring) (title byline excerpt siteName : option jsstring)
          (markdown : jsstring) (contentLength : nat)
| Failure (error : jsstring).

(** *** Computations: the requests issued so far are the state, a thrown
    value ends a computation and keeps the state. *)

Definition World := list Request.
Definition M (A : Type) : Type := World -> (Thrown + A) * World.

Definition ret {A} (a : A) : M A := fun w => (inr a, w).

Definition throw {A} (e : Thrown) : M A := fun w => (inl e, w).

Definition bind {A B} (m : M A) (k : A -> M B) : M B :=
  fun w =>
    match m w with
    | (inr a, w') => k a w'
    | (inl e, w') => (inl e, w')
    end.

(** [try { m } catch (e) { h e }] *)
Definition tryCatch {A} (m : M A) (h : Thrown -> M A) : M A :=
  fun w =>
    match m w with
    | (inr a, w') => (inr a, w')
    | (inl e, w') => h e w'
    end.

(** [await p] for a promise that is already settled. *)
Definition await {A} (p : Thrown + A) : M A :=
  match p with
  | inr a => ret a
  | inl e => throw e
  end.

Declare Scope node_scope.
Delimit Scope node_scope with node.
Notation "x <- m ;; k" := (bind m (fun x => k))
  (at level 100, m at next level, right associativity) : node_scope.
Notation "' p <- m ;; k" := (bind m (fun x => match x with p => k end))
  (at level 100, p pattern, m at next level, right associativity) : node_scope.
Local Open Scope node_scope.

(** *** The rules the node adds *)

(** [replacement: (content) => content] *)
Definition removeLinks : Rule :=
  {| filter := tagFilter "a";
     replacement := fun content _ => content;
     append := None |}.

(** [replacement: () => ''] *)
Definition removeImages : Rule :=
  {| filter := tagFilter "img";
     replacement := fun _ _ => [];
     append := None |}.

(** The placeholders of the [altText] mode; the two ideographs are
    U+753B U+50CF. *)
Definition imagePlaceholderOpen : jsstring := [91; 30011; 20687; 58; 32]%N.
Definition imagePlaceholderBare : jsstring := [91; 30011; 20687; 93]%N.

Definition imageAltTextReplacement (_content : jsstring) (node : Node) : jsstring :=
  let alt := getAttribute node (js "alt") in
  match alt with
  | Some a =>
      if nonEmpty a && nonEmpty (trim a)
      then imagePlaceholderOpen ++ trim a ++ js "]"
      else imagePlaceholderBare
  | None => imagePlaceholderBare
  end.

Definition imageAltText : Rule :=
  {| filter := tagFilter "img";
     replacement := imageAltTextReplacement;
     append := None |}.

(** *** The frontmatter block *)

(** [`name: "${value}"`] *)
Definition yamlLine (name : string) (value : jsstring) : jsstring :=
  js name ++ js ": " ++ [QUOTE] ++ value ++ [QUOTE].

Definition escapedExcerpt (e : jsstring) : jsstring :=
  newlinesToSpaces (escapeQuotes e).

Definition whenTruthy (v : option jsstring) (f : jsstring -> jsstring)
  : list jsstring :=
  match v with
  | Some (c :: s) => [f (c :: s)]
  | _ => []
  end.

Definition frontmatterLines (article : Article) (finalUrl now : jsstring)
  : list jsstring :=
  [js "---"]
  ++ whenTruthy (title article) (fun t => yamlLine "title" (escapeQuotes t))
  ++ [yamlLine "url" finalUrl]
  ++ whenTruthy (byline article) (fun b => yamlLine "author" (escapeQuotes b))
  ++ whenTruthy (siteName article) (fun s => yamlLine "site" (escapeQuotes s))
  ++ whenTruthy (excerpt article) (fun e => yamlLine "excerpt" (escapedExcerpt e))
  ++ [yamlLine "date" now]
  ++ [js "---"]
  ++ [[]].

Definition addFrontmatter (article : Article) (finalUrl now markdown : jsstring)
  : jsstring :=
  join [LF] (frontmatterLines article finalUrl now) ++ markdown.

Section Execute.

(** The turndown package (see [Turndown.Service]). *)
Variable escape : jsstring -> jsstring.
Variable commonmarkRules : Turndown.Options -> list Rule.
Variable parseHTML : jsstring -> list Node.

(** [new Readability(new JSDOM(html, {url}).window.document).parse()]:
    the article, or [null]. *)
Variable parseArticle : jsstring -> jsstring -> option Article.

(** The network: the reply to the [n]-th request of the run, by URL. *)
Variable net : nat -> jsstring -> NetReply.

(** [new Date().toISOString()] while item [i] is processed. *)
Variable toISOString : nat -> jsstring.

(** [this.continueOnFail()] *)
Variable continueOnFail : bool.

(** [fetch(url, {headers, signal, redirect: 'follow'})] with the abort
    timer set by [setTimeout(..., delay)]: the request goes out, and the
    timer wins when the reply takes at least the time the timer waits. *)
Definition fetch (url : jsstring) (delay : Z) : M Response :=
  fun w =>
    let w' := w ++ [{| requestUrl := url;
                       requestHeaders := browserHeaders;
                       abortAfterMs := delay |}] in
    let reply := net (List.length w) url in
    if (timerDelay delay <=? latencyOf reply)%Z then (inl abortError, w')
    else match reply with
         | Responds _ r => (inr r, w')
         | Fails _ e => (inl e, w')
         end.

(** The service with the node's rules for the chosen link and image
    handling. *)
Definition configureService (includeLinks : bool) (imageHandling : ImageHandling)
           (service : TurndownService) : TurndownService :=
  let service :=
    if negb includeLinks then addRule "removeLinks" removeLinks service
    else service in
  match imageHandling with
  | remove => addRule "removeImages" removeImages service
  | altText => addRule "imageAltText" imageAltText service
  | include => service
  end.

(** The option values in effect, lines 112-117. *)
Definition timeoutOf (o : NodeOptions) : Z := numberOr (timeout o) 30.

Definition includeLinksOf (o : NodeOptions) : bool :=
  match includeLinks o with Some false => false | _ => true end.

Definition imageHandlingOf (o : NodeOptions) : ImageHandling :=
  match imageHandling o with Some h => h | None => include end.

Definition headingStyleOf (o : NodeOptions) : HeadingStyle :=
  match headingStyle o with Some h => h | None => atx end.

Definition codeBlockStyleOf (o : NodeOptions) : CodeBlockStyle :=
  match codeBlockStyle o with Some c => c | None => fenced end.

Definition includeFrontmatterOf (o : NodeOptions) : bool :=
  match includeFrontmatter o with Some true => true | _ => false end.

(** Lines 123-163: the fetch with its abort timer; the page text and the
    final URL. *)
Definition fetchPage (i : nat) (url : jsstring) (timeout : Z)
  : M (jsstring * jsstring) :=
  tryCatch
    (response <- fetch url (timeout * 1000) ;;
     if negb (ok response)
     then throw (NodeOperationError
                   (js "Failed to fetch URL: "
                    ++ numberToString (status response)
                    ++ js " " ++ statusText response) i)
     else
       html <- await (responseText response) ;;
       ret (html, responseUrl response))
    (fun fetchError =>
       if isAbortError fetchError
       then throw (NodeOperationError
                     (js "Request timed out after "
                      ++ numberToString timeout ++ js " seconds") i)
       else throw fetchError).

(** Lines 178-211: the service the node builds for the options. *)
Definition serviceFor (o : NodeOptions) : TurndownService :=
  configureService (includeLinksOf o) (imageHandlingOf o)
    (newTurndownService commonmarkRules
       {| Turndown.headingStyle := headingStyleOf o;
          Turndown.codeBlockStyle := codeBlockStyleOf o |}).

(** Lines 211-238: the Markdown of the article, with the frontmatter
    when it is asked for. *)
Definition renderMarkdown (i : nat) (o : NodeOptions) (article : Article)
           (finalUrl : jsstring) : jsstring :=
  let markdown :=
    turndown escape parseHTML (serviceFor o) (content article) in
  if includeFrontmatterOf o
  then addFrontmatter article finalUrl (toISOString i) markdown
  else markdown.

(** The body of the [try] block for item [i]. *)
Definition processItem (i : nat) (item : Item) : M Json :=
  let options := options item in
  let timeout := timeoutOf options in
  match url item with
  | Some (c :: u) =>
      let url := c :: u in
      ' (html, finalUrl) <- fetchPage i url timeout ;;
      match parseArticle html finalUrl with
      | None =>
          throw (NodeOperationError
                   (js "Failed to parse article content from the page") i)
      | Some article =>
          let markdown := renderMarkdown i options article finalUrl in
          ret (Success finalUrl (title article) (byline article)
                       (excerpt article) (siteName article)
                       markdown (List.length markdown))
      end
  | _ => throw (NodeOperationError (js "URL is required") i)
  end.

(** The [for] loop from index [i] on, with the records pushed so far. *)
Fixpoint loop (i : nat) (items : list Item) (returnData : list Json)
  : M (list Json) :=
  match items with
  | [] => ret returnData
  | item :: rest =>
      returnData' <-
        tryCatch
          (json <- processItem i item ;; ret (returnData ++ [json]))
          (fun error =>
             if continueOnFail
             then ret (returnData ++ [Failure (messageOf error)])
             else throw error) ;;
      loop (S i) rest returnData'
  end.

Definition execute (items : list Item) : M (list (list Json)) :=
  returnData <- loop 0 items [] ;;
  ret [returnData].

End Execute.

End Url2Markdown.

(* ===================================================================== *)
(** ** Concrete pages and networks for worked runs *)
(* ===================================================================== *)

Module Fixture.

Import Turndown Url2Markdown.

(** A text escaper that leaves the text as it is. *)
Definition escape (s : jsstring) : jsstring := s.

(** A small rule table: paragraphs, and links and images in their default
    inline renderings [[text](href)] and [![alt](src)]. *)
Definition paragraph : Rule :=
  {| filter := tagFilter "p";
     replacement := fun content _ => [LF; LF] ++ content ++ [LF; LF];
     append := None |}.

Definition orEmpty (v : option jsstring) : jsstring :=
  match v with Some s => s | None => [] end.

Definition inlineLink : Rule :=
  {| filter := fun n => tagFilter "a" n && truthy (getAttribute n (js "href"));
     replacement := fun content n =>
       js "[" ++ content ++ js "](" ++ orEmpty (getAttribute n (js "href")) ++ js ")";
     append := None |}.

Definition image : Rule :=
  {| filter := tagFilter "img";
     replacement := fun _ n =>
       if truthy (getAttribute n (js "src"))
       then js "![" ++ orEmpty (getAttribute n (js "alt")) ++ js "]("
            ++ orEmpty (getAttribute n (js "src")) ++ js ")"
       else [];
     append := None |}.

Definition commonmarkRules (_ : Turndown.Options) : list Rule :=
  [paragraph; inlineLink; image].

(** The page [<p>Hello <a href="https://x">world</a><img src="https://x/i.png" alt=" logo "></p>],
    already parsed. *)
Definition page : list Node :=
  [Element (js "P") []
     [Text (js "Hello ");
      Element (js "A") [(js "href", js "https://x"); (js "title", js "t")]
        [Text (js "world")];
      Element (js "IMG") [(js "src", js "https://x/i.png"); (js "alt", js " logo ")] []]].

Definition parseHTML (_ : jsstring) : list Node := page.

(** The extractor finds an article unless the markup is the empty-bodied
    document. *)
Definition emptyBody : jsstring := js "<html><body></body></html>".

Definition article : Article :=
  {| title := Some (js "A " ++ [QUOTE] ++ js "quoted" ++ [QUOTE] ++ js " title");
     byline := None;
     excerpt := Some (js "line one" ++ [LF] ++ js "says " ++ [QUOTE] ++ js "hi" ++ [QUOTE]);
     siteName := Some (js "Example");
     content := js "<p>...</p>" |}.

Definition parseArticle (html _url : jsstring) : option Article :=
  if str_eqb html emptyBody then None else Some article.

(** A network that answers every request after 120 ms with a page and a
    redirected final URL; the URL [https://empty.example/] has an empty
    body, [https://slow.example/] answers after 45 s, and
    [https://gone.example/] answers 404. *)
Definition finalUrl : jsstring := js "https://example.com/final".

Definition net (_ : nat) (url : jsstring) : NetReply :=
  if str_eqb url (js "https://slow.example/") then
    Responds 45000 {| status := 200; statusText := js "OK";
                      responseText := inr (js "<html>late</html>");
                      responseUrl := url |}
  else if str_eqb url (js "https://gone.example/") then
    Responds 80 {| status := 404; statusText := js "Not Found";
                   responseText := inr []; responseUrl := url |}
  else if str_eqb url (js "https://empty.example/") then
    Responds 120 {| status := 200; statusText := js "OK";
                    responseText := inr emptyBody; responseUrl := url |}
  else
    Responds 120 {| status := 200; statusText := js "OK";
                    responseText := inr (js "<html>page</html>");
                    responseUrl := finalUrl |}.

Definition now : jsstring := js "2024-01-01T00:00:00.000Z".
Definition toISOString (_ : nat) : jsstring := now.

Definition noOptions : NodeOptions :=
  {| timeout := None; includeLinks := None; imageHandling := None;
     headingStyle := None; codeBlockStyle := None; includeFrontmatter := None |}.

Definition withFrontmatter : NodeOptions :=
  {| timeout := None; includeLinks := None; imageHandling := None;
     headingStyle := None; codeBlockStyle := None;
     includeFrontmatter := Some true |}.

Definition withTimeout (t : Z) : NodeOptions :=
  {| timeout := Some (Finite t); includeLinks := None; imageHandling := None;
     headingStyle := None; codeBlockStyle := None; includeFrontmatter := None |}.

Definition linksOff (h : option ImageHandling) : NodeOptions :=
  {| timeout := None; includeLinks := Some false; imageHandling := h;
     headingStyle := None; codeBlockStyle := None; includeFrontmatter := None |}.

Definition item (u : string) (o : NodeOptions) : Item :=
  {| url := Some (js u); options := o |}.

(** The link and the image of [page]. *)
Definition link : Node :=
  Element (js "A") [(js "href", js "https://x"); (js "title", js "t")]
    [Text (js "world")].

Definition picture : Node :=
  Element (js "IMG") [(js "src", js "https://x/i.png"); (js "alt", js " logo ")] [].

(** The lines of the frontmatter block before its closing line, and the
    body, that the run on [article] gives. *)
Definition expectedBlock : list jsstring :=
  [ js "---";
    yamlLine "title"
      (js "A " ++ [BACKSLASH; QUOTE] ++ js "quoted" ++ [BACKSLASH; QUOTE]
       ++ js " title");
    yamlLine "url" finalUrl;
    yamlLine "site" (js "Example");
    yamlLine "excerpt"
      (js "line one says " ++ [BACKSLASH; QUOTE] ++ js "hi"
       ++ [BACKSLASH; QUOTE]);
    yamlLine "date" now ].

Definition expectedBody : jsstring :=
  js "Hello [world](https://x)![ logo ](https://x/i.png)".

Definition run (continue : bool) (items : list Item) :=
  execute escape commonmarkRules parseHTML parseArticle net toISOString
          continue items [].

Definition runItem (i : nat) (it : Item) (w : World) :=
  processItem escape commonmarkRules parseHTML parseArticle net toISOString
              i it w.

End Fixture.

(* ===================================================================== *)
(** ** Notions used to state the properties *)
(* ===================================================================== *)

Module Props.

Import Turndown Url2Markdown.

(** Each line followed by one line feed. *)
Definition unlines (ls : list jsstring) : jsstring :=
  flat_map (fun l => l ++ [LF]) ls.

(** Every double quote of [s] has a backslash right before it. *)
Definition quotesEscaped (s : jsstring) : Prop :=
  forall pre post, s = pre ++ QUOTE :: post ->
                   exists pre', pre = pre' ++ [BACKSLASH].

(** Quotes are escaped when each one follows a backslash; [prev] is the
    code unit before the text. *)
Fixpoint quotesFollowBackslash (prev : N) (s : jsstring) : Prop :=
  match s with
  | [] => True
  | c :: s' => (c = QUOTE -> prev = BACKSLASH) /\ quotesFollowBackslash c s'
  end.

(** The excerpt value in the order the specification words it: line feeds
    become spaces first, then the quotes are escaped. *)
Definition excerptPerSpec (e : jsstring) : jsstring :=
  escapeQuotes (newlinesToSpaces e).

(** [out] is a frontmatter block that ends with the closing [---] line,
    then exactly one blank line, then [body]. *)
Definition separatedByOneBlankLine (out body : jsstring) : Prop :=
  exists block,
    out = unlines (block ++ [js "---"]) ++ [LF] ++ body
    /\ (forall c, hd_error body = Some c -> c <> LF).

(** The request the node issues for [url] with a timeout of [seconds]. *)
Definition requestFor (url : jsstring) (seconds : Z) : Request :=
  {| requestUrl := url;
     requestHeaders := browserHeaders;
     abortAfterMs := seconds * 1000 |}.

(** The rendering of an inline element whose rule returns [content]
    unchanged: the white space at the edges of its text goes outside. *)
Definition hoisted (whitespace : jsstring * jsstring) (content : jsstring)
  : jsstring :=
  fst whitespace
  ++ (if nonEmpty (fst whitespace) || nonEmpty (snd whitespace)
      then trim content else content)
  ++ snd whitespace.

(** The image placeholder as the specification words it: the bracketed,
    trimmed alt text when the alt attribute is there and not all white
    space, else the placeholder of an unlabeled image. *)
Definition placeholderPerSpec (alt : option jsstring) : jsstring :=
  match alt with
  | Some a =>
      if forallb isWhitespace a then imagePlaceholderBare
      else imagePlaceholderOpen ++ trim a ++ js "]"
  | None => imagePlaceholderBare
  end.

(** A rule that, on every node other than the elements whose [nodeName]
    is [tag], does not look at the attributes of those elements (which can
    only be below the node). *)
Definition ignoresAttributesOf (tag : jsstring)
           (g : list (jsstring * jsstring) -> list (jsstring * jsstring))
           (r : Rule) : Prop :=
  forall content n,
    hasNodeName tag n = false ->
    filter r (mapAttributesOf tag g n) = filter r n
    /\ replacement r content (mapAttributesOf tag g n) = replacement r content n.

(** What is left of an image's attributes when only [alt] is kept. *)
Definition onlyAlt (attrs : list (jsstring * jsstring))
  : list (jsstring * jsstring) :=
  match lookupAttribute (js "alt") attrs with
  | Some a => [(js "alt", a)]
  | None => []
  end.

(** The [markdown] field of a record. *)
Definition markdownOf (json : Json) : jsstring :=
  match json with
  | Success _ _ _ _ _ markdown _ => markdown
  | Failure _ => []
  end.

End Props.

(* ===================================================================== *)
(** ** The declared defaults of the options *)
(* ===================================================================== *)

Module Description.

Import Turndown Url2Markdown.

(** The [default] values that [description.properties] declares for the
    options of the collection. *)
Definition declaredDefaults : NodeOptions :=
  {| timeout := Some (Finite 30);
     includeLinks := Some true;
     imageHandling := Some include;
     headingStyle := Some atx;
     codeBlockStyle := Some fenced;
     includeFrontmatter := Some false |}.

Definition orDeclared {A} (v d : option A) : option A :=
  match v with
  | Some _ => v
  | None => d
  end.

(** The options with every one the caller left out set to its declared
    default. *)
Definition withDeclaredDefaults (o : NodeOptions) : NodeOptions :=
  {| timeout := orDeclared (timeout o) (timeout declaredDefaults);
     includeLinks := orDeclared (includeLinks o) (includeLinks declaredDefaults);
     imageHandling :=
       orDeclared (imageHandling o) (imageHandling declaredDefaults);
     headingStyle := orDeclared (headingStyle o) (headingStyle declaredDefaults);
     codeBlockStyle :=
       orDeclared (codeBlockStyle o) (codeBlockStyle declaredDefaults);
     includeFrontmatter :=
       orDeclared (includeFrontmatter o) (includeFrontmatter declaredDefaults) |}.

End Description.

(* ===================================================================== *)
(** ** The version of the node with the [includeImages] switch *)
(* ===================================================================== *)

(** [execute] of the version whose options have the boolean
    [includeImages] in place of [imageHandling] and no frontmatter; its
    fetch step is the one of [Url2Markdown], line for line. *)
Module Url2MarkdownImages.

Import Turndown Url2Markdown.

Record NodeOptions := {
  timeout : option number;
  includeLinks : option bool;
  includeImages : option bool;
  headingStyle : option HeadingStyle;
  codeBlockStyle : option CodeBlockStyle
}.

Record Item := {
  url : option jsstring;
  options : NodeOptions
}.

Local Open Scope node_scope.

Section Execute.

Variable escape : jsstring -> jsstring.
Variable commonmarkRules : Turndown.Options -> list Rule.
Variable parseHTML : jsstring -> list Node.
Variable parseArticle : jsstring -> jsstring -> option Article.
Variable net : nat -> jsstring -> NetReply.
Variable continueOnFail : bool.

(** The body of the [try] block for item [i]. *)
Definition processItem (i : nat) (item : Item) : M Json :=
  let options := options item in
  let timeout := numberOr (timeout options) 30 in
  let includeLinks :=
    match includeLinks options with Some false => false | _ => true end in
  let includeImages :=
    match includeImages options with Some false => false | _ => true end in
  let headingStyle :=
    match headingStyle options with Some h => h | None => atx end in
  let codeBlockStyle :=
    match codeBlockStyle options with Some c => c | None => fenced end in
  match url item with
  | Some (c :: u) =>
      let url := c :: u in
      ' (html, finalUrl) <- fetchPage net i url timeout ;;
      match parseArticle html finalUrl with
      | None =>
          throw (NodeOperationError
                   (js "Failed to parse article content from the page") i)
      | Some article =>
          let turndownService :=
            newTurndownService commonmarkRules
              {| Turndown.headingStyle := headingStyle;
                 Turndown.codeBlockStyle := codeBlockStyle |} in
          let turndownService :=
            if negb includeLinks
            then addRule "removeLinks" removeLinks turndownService
            else turndownService in
          let turndownService :=
            if negb includeImages
            then addRule "removeImages" removeImages turndownService
            else turndownService in
          let markdown :=
            turndown escape parseHTML turndownService (content article) in
          ret (Success finalUrl (title article) (byline article)
                       (excerpt article) (siteName article)
                       markdown (List.length markdown))
      end
  | _ => throw (NodeOperationError (js "URL is required") i)
  end.

Fixpoint loop (i : nat) (items : list Item) (returnData : list Json)
  : M (list Json) :=
  match items with
  | [] => ret returnData
  | item :: rest =>
      returnData' <-
        tryCatch
          (json <- processItem i item ;; ret (returnData ++ [json]))
          (fun error =>
             if continueOnFail
             then ret (returnData ++ [Failure (messageOf error)])
             else throw error) ;;
      loop (S i) rest returnData'
  end.

Definition execute (items : list Item) : M (list (list Json)) :=
  returnData <- loop 0 items [] ;;
  ret [returnData].

End Execute.

End Url2MarkdownImages.

(* ===================================================================== *)
(** ** The version of the node that asks the Jina Reader *)
(* ===================================================================== *)

(** [execute] of [src/nodes/Url2Markdown/Url2Markdown.node.ts]: the page
    is not fetched and converted by the node; the reader service at
    [https://r.jina.ai/] is asked for its Markdown. *)
Module Url2MarkdownJina.

Import Url2Markdown.

(** The [options] collection has the timeout only. *)
Record Item := {
  url : option jsstring;
  timeout : option number
}.

(** The record [{url, markdown, contentLength}] and the error record. *)
Inductive Json :=
| Success (url markdown : jsstring) (contentLength : nat)
| Failure (error : jsstring).

Definition readerHeaders : list (jsstring * jsstring) :=
  [ (js "Accept", js "text/markdown") ].

(** [`https://r.jina.ai/${url}`] *)
Definition jinaUrlOf (url : jsstring) : jsstring :=
  js "https://r.jina.ai/" ++ url.

Local Open Scope node_scope.

Section Execute.

Variable net : nat -> jsstring -> NetReply.
Variable continueOnFail : bool.

(** [fetch(jinaUrl, {headers: {Accept: 'text/markdown'}, signal})] with
    the abort timer set to [delay] milliseconds. *)
Definition fetch (jinaUrl : jsstring) (delay : Z) : M Response :=
  fun w =>
    let w' := w ++ [{| requestUrl := jinaUrl;
                       requestHeaders := readerHeaders;
                       abortAfterMs := delay |}] in
    let reply := net (List.length w) jinaUrl in
    if (timerDelay delay <=? latencyOf reply)%Z then (inl abortError, w')
    else match reply with
         | Responds _ r => (inr r, w')
         | Fails _ e => (inl e, w')
         end.

(** The body of the outer [try] block for item [i]. *)
Definition processItem (i : nat) (item : Item) : M Json :=
  let timeout := numberOr (timeout item) 30 in
  match url item with
  | Some (c :: u) =>
      let url := c :: u in
      let jinaUrl := jinaUrlOf url in
      tryCatch
        (response <- fetch jinaUrl (timeout * 1000) ;;
         if negb (ok response)
         then throw (NodeOperationError
                       (js "Failed to fetch URL: "
                        ++ numberToString (status response)
                        ++ js " " ++ statusText response) i)
         else
           markdown <- await (responseText response) ;;
           ret (Success url markdown (List.length markdown)))
        (fun fetchError =>
           if isAbortError fetchError
           then throw (NodeOperationError
                         (js "Request timed out after "
                          ++ numberToString timeout ++ js " seconds") i)
           else throw fetchError)
  | _ => throw (NodeOperationError (js "URL is required") i)
  end.

Fixpoint loop (i : nat) (items : list Item) (returnData : list Json)
  : M (list Json) :=
  match items with
  | [] => ret returnData
  | item :: rest =>
      returnData' <-
        tryCatch
          (json <- processItem i item ;; ret (returnData ++ [json]))
          (fun error =>
             if continueOnFail
             then ret (returnData ++ [Failure (messageOf error)])
             else throw error) ;;
      loop (S i) rest returnData'
  end.

Definition execute (items : list Item) : M (list (list Json)) :=
  returnData <- loop 0 items [] ;;
  ret [returnData].

End Execute.

End Url2MarkdownJina.

(* ===================================================================== *)
(** ** More notions and fixtures *)
(* ===================================================================== *)

Module Props2.

Import Turndown Url2Markdown.

(** [n] or a node below it is an element that a tag-name filter for one
    of [names] takes: its name in lower case is in [names]. *)
Fixpoint mentions (names : list jsstring) (n : Node) : bool :=
  match n with
  | Element nm _ kids =>
      existsb (str_eqb (toLowerCase nm)) names
      || existsb (mentions names) kids
  | _ => false
  end.

(** Neither [n] nor a node below it is such an element. *)
Definition freeOf (names : list jsstring) (n : Node) : bool :=
  negb (mentions names n).

Definition linkAndImage : list jsstring := [js "a"; js "img"].

(** [s.split('\n')] *)
Fixpoint splitLines (s : jsstring) : list jsstring :=
  match s with
  | [] => [[]]
  | c :: s' =>
      if N.eqb c LF then [] :: splitLines s'
      else match splitLines s' with
           | l :: ls => (c :: l) :: ls
           | [] => [[c]]
           end
  end.

(** The inverse of [escapeQuotes]: a backslash right before a double quote
    is dropped. *)
Fixpoint unescapeQuotes (s : jsstring) : jsstring :=
  match s with
  | b :: ((q :: r) as rest) =>
      if N.eqb b BACKSLASH && N.eqb q QUOTE
      then q :: unescapeQuotes r
      else b :: unescapeQuotes rest
  | _ => s
  end.

(** A value that is absent or has no line feed. *)
Definition noLineFeed (v : option jsstring) : Prop :=
  match v with
  | Some s => ~ In LF s
  | None => True
  end.

(** The URLs of the items that have one, in order. *)
Definition urlsOf (items : list Item) : list jsstring :=
  flat_map (fun item =>
              match url item with
              | Some (c :: u) => [c :: u]
              | _ => []
              end) items.

(** The item of the [includeImages] version in the terms of the
    [imageHandling] version: images that are switched off are removed, and
    there is no frontmatter. *)
Definition upgradeOptions (o : Url2MarkdownImages.NodeOptions) : NodeOptions :=
  {| timeout := Url2MarkdownImages.timeout o;
     includeLinks := Url2MarkdownImages.includeLinks o;
     imageHandling :=
       match Url2MarkdownImages.includeImages o with
       | Some false => Some remove
       | _ => None
       end;
     headingStyle := Url2MarkdownImages.headingStyle o;
     codeBlockStyle := Url2MarkdownImages.codeBlockStyle o;
     includeFrontmatter := None |}.

(** The request the reader version issues for [url]. *)
Definition readerRequest (url : jsstring) (seconds : Z) : Request :=
  {| requestUrl := Url2MarkdownJina.jinaUrlOf url;
     requestHeaders := Url2MarkdownJina.readerHeaders;
     abortAfterMs := seconds * 1000 |}.

Definition upgradeItem (item : Url2MarkdownImages.Item) : Item :=
  {| url := Url2MarkdownImages.url item;
     options := upgradeOptions (Url2MarkdownImages.options item) |}.

End Props2.

Module Fixture2.

Import Turndown Url2Markdown.

(** A network on which [https://down.example/] refuses the connection,
    [https://cut.example/] answers 200 and then breaks while the body is
    read, and [https://gone.example/] answers 404; every other URL is
    answered by [Fixture.net]. *)
Definition connectionRefused : Thrown :=
  OtherError (js "TypeError") (js "fetch failed").

Definition bodyCut : Thrown :=
  OtherError (js "TypeError") (js "terminated").

Definition net (n : nat) (url : jsstring) : NetReply :=
  if str_eqb url (js "https://down.example/") then Fails 40 connectionRefused
  else if str_eqb url (js "https://cut.example/") then
    Responds 90 {| status := 200; statusText := js "OK";
                   responseText := inl bodyCut; responseUrl := url |}
  else Fixture.net n url.

Definition runItem (i : nat) (it : Item) (w : World) :=
  processItem Fixture.escape Fixture.commonmarkRules Fixture.parseHTML
              Fixture.parseArticle net Fixture.toISOString i it w.

Definition run (continue : bool) (items : list Item) (w : World) :=
  execute Fixture.escape Fixture.commonmarkRules Fixture.parseHTML
          Fixture.parseArticle net Fixture.toISOString continue items w.

(** A page without links and images. *)
Definition plainPage : list Node :=
  [Element (js "P") [] [Text (js "Hello "); Element (js "EM") [] [Text (js "you")]]].

Definition parsePlain (_ : jsstring) : list Node := plainPage.

(** An article whose title has two lines. *)
Definition twoLineTitle : Article :=
  {| title := Some (js "Breaking" ++ [LF] ++ js "news");
     byline := None; excerpt := None; siteName := None;
     content := js "<p>...</p>" |}.

(** The reader service: it answers a request for the page
    [https://example.com/a] with Markdown, and nothing else. *)
Definition readerNet (_ : nat) (url : jsstring) : NetReply :=
  if str_eqb url (js "https://r.jina.ai/https://example.com/a") then
    Responds 300 {| status := 200; statusText := js "OK";
                    responseText := inr (js "# A");
                    responseUrl := url |}
  else if str_eqb url (js "https://r.jina.ai/https://slow.example/") then
    Responds 45000 {| status := 200; statusText := js "OK";
                      responseText := inr (js "late"); responseUrl := url |}
  else
    Responds 60 {| status := 422; statusText := js "Unprocessable Entity";
                   responseText := inr []; responseUrl := url |}.

Definition readerItem (u : string) (t : option number) : Url2MarkdownJina.Item :=
  {| Url2MarkdownJina.url := Some (js u); Url2MarkdownJina.timeout := t |}.

Definition imagesItem (u : string) (links images : option bool)
  : Url2MarkdownImages.Item :=
  {| Url2MarkdownImages.url := Some (js u);
     Url2MarkdownImages.options :=
       {| Url2MarkdownImages.timeout := None;
          Url2MarkdownImages.includeLinks := links;
          Url2MarkdownImages.includeImages := images;
          Url2MarkdownImages.headingStyle := None;
          Url2MarkdownImages.codeBlockStyle := None |} |}.

End Fixture2.

(* ===================================================================== *)
(** ** Pieces of Markdown in an output, and pages that produce them *)
(* ===================================================================== *)

Module Props3.

(** [s] has [piece] in it. *)
Definition contains (piece s : jsstring) : Prop :=
  exists before after, s = before ++ piece ++ after.

(** [s] has a piece of the form [[text](href)]. *)
Definition containsLinkSyntax (s : jsstring) : Prop :=
  exists before text href after,
    s = before ++ js "[" ++ text ++ js "](" ++ href ++ js ")" ++ after.

(** [s] has a piece of the form [![alt](src)]. *)
Definition containsImageMarker (s : jsstring) : Prop :=
  exists before alt src after,
    s = before ++ js "![" ++ alt ++ js "](" ++ src ++ js ")" ++ after.

End Props3.

Module Fixture3.

Import Turndown Url2Markdown.

(** [<p><a href="https://x">go</a> <img src="https://x/i.png" alt="a">(https://evil.example/)</p>] *)
Definition placeholderThenParenthesis : list Node :=
  [Element (js "P") []
     [Element (js "A") [(js "href", js "https://x")] [Text (js "go")];
      Text (js " ");
      Element (js "IMG") [(js "src", js "https://x/i.png"); (js "alt", js "a")] [];
      Text (js "(https://evil.example/)")]].

(** [<p>Wow!<a href="https://x/pic">click</a><img src="https://x/i.png" alt="pic"></p>] *)
Definition bangBeforeLink : list Node :=
  [Element (js "P") []
     [Text (js "Wow!");
      Element (js "A") [(js "href", js "https://x/pic")] [Text (js "click")];
      Element (js "IMG") [(js "src", js "https://x/i.png"); (js "alt", js "pic")] []]].

(** [<a href="https://x/i.png"><img src="https://x/i.png" alt="pic"></a>] *)
Definition linkedImage : list Node :=
  [Element (js "A") [(js "href", js "https://x/i.png")]
     [Element (js "IMG") [(js "src", js "https://x/i.png"); (js "alt", js "pic")] []]].

Definition optionsWith (links : option bool) (images : option ImageHandling)
  : NodeOptions :=
  {| timeout := None; includeLinks := links; imageHandling := images;
     headingStyle := None; codeBlockStyle := None; includeFrontmatter := None |}.

(** The run of one item on a page that parses to [page]. *)
Definition runOn (page : list Node) (o : NodeOptions) :=
  processItem Fixture.escape Fixture.commonmarkRules (fun _ => page)
              Fixture.parseArticle Fixture.net Fixture.toISOString
              0 (Fixture.item "https://a/" o) [].

Definition markdownOn (page : list Node) (o : NodeOptions) : option jsstring :=
  match fst (runOn page o) with
  | inr (Success _ _ _ _ _ markdown _) => Some markdown
  | _ => None
  end.

(** A URL whose host holds a double quote.  The URL parser keeps a double
    quote of a host as it is (it percent-encodes the quotes of a path, a
    query and a fragment only), so this is the [response.url] of a reply
    from that host. *)
Definition quotedHostUrl : jsstring := js "http://a" ++ [QUOTE] ++ js "b/".

(** A network on which every host answers with a page, without redirect. *)
Definition directNet (_ : nat) (url : jsstring) : NetReply :=
  Responds 120 {| status := 200; statusText := js "OK";
                  responseText := inr (js "<html>page</html>");
                  responseUrl := url |}.

(** The markdown of the page at [u], with the frontmatter asked for. *)
Definition markdownWithFrontmatterAt (u : jsstring) : option jsstring :=
  match fst (processItem Fixture.escape Fixture.commonmarkRules
               Fixture.parseHTML Fixture.parseArticle directNet
               Fixture.toISOString
               0 {| url := Some u; options := Fixture.withFrontmatter |} [])
  with
  | inr (Success _ _ _ _ _ markdown _) => Some markdown
  | _ => None
  end.

End Fixture3.

(* ===================================================================== *)
(** ** Strings: basic facts *)
(* ===================================================================== *)

Import Turndown Url2Markdown Props.

Lemma str_eqb_eq a b : str_eqb a b = true <-> a = b.
Proof.
  revert b; induction a as [|x a IH]; intros [|y b]; simpl; split;
    try congruence; try reflexivity.
  - intros H. apply andb_true_iff in H as [H1 H2].
    apply N.eqb_eq in H1. apply IH in H2. congruence.
  - intros H. inversion H; subst. rewrite N.eqb_refl. simpl. now apply IH.
Qed.

Lemma str_eqb_refl a : str_eqb a a = true.
Proof. now apply str_eqb_eq. Qed.

Lemma join_unlines ls : join [LF] (ls ++ [[]]) = unlines ls.
Proof.
  induction ls as [|l ls IH]; [reflexivity|].
  change ((l :: ls) ++ [[]]) with (l :: (ls ++ [[]])).
  unfold unlines; simpl. fold (unlines ls). rewrite <- IH.
  destruct (ls ++ [[]]) eqn:E.
  - destruct ls; discriminate.
  - now rewrite <- app_assoc.
Qed.

Lemma unlines_app a b : unlines (a ++ b) = unlines a ++ unlines b.
Proof. unfold unlines. apply flat_map_app. Qed.

Lemma dropWhile_head p s c : hd_error (dropWhile p s) = Some c -> p c = false.
Proof.
  induction s as [|x s IH]; simpl; [discriminate|].
  destruct (p x) eqn:E; simpl; [exact IH|].
  intros H; inversion H; subst; exact E.
Qed.

Lemma dropWhile_suffix p s : exists pre, s = pre ++ dropWhile p s.
Proof.
  induction s as [|x s [pre IH]]; simpl.
  - now exists [].
  - destruct (p x).
    + exists (x :: pre). simpl. now f_equal.
    + now exists [].
Qed.

Lemma dropWhileEnd_prefix p s : exists suf, s = dropWhileEnd p s ++ suf.
Proof.
  unfold dropWhileEnd. destruct (dropWhile_suffix p (rev s)) as [pre H].
  exists (rev pre). rewrite <- rev_app_distr, <- H. now rewrite rev_involutive.
Qed.

Lemma dropWhileEnd_head p s c :
  hd_error (dropWhileEnd p s) = Some c -> hd_error s = Some c.
Proof.
  destruct (dropWhileEnd_prefix p s) as [suf H].
  destruct (dropWhileEnd p s) as [|x t]; simpl; [discriminate|].
  intros E. injection E as ->. rewrite H. reflexivity.
Qed.

(** The converter's output never starts with a line feed. *)
Lemma turndown_head escape parseHTML service input c :
  hd_error (turndown escape parseHTML service input) = Some c -> c <> LF.
Proof.
  unfold turndown. destruct input as [|x input]; [discriminate|].
  unfold postProcess. intros H.
  apply dropWhileEnd_head, dropWhile_head in H.
  intros ->. discriminate.
Qed.

(* ===================================================================== *)
(** ** The fetch step *)
(* ===================================================================== *)

Section FetchFacts.

Variable net : nat -> jsstring -> NetReply.


Lemma fetchPage_ok i url seconds w latency r html :
  net (List.length w) url = Responds latency r ->
  (latency < timerDelay (seconds * 1000))%Z ->
  ok r = true ->
  responseText r = inr html ->
  fetchPage net i url seconds w
  = (inr (html, responseUrl r), w ++ [requestFor url seconds]).
Proof.
  intros Hn Hl Hok Ht. unfold fetchPage, tryCatch, bind, fetch.
  rewrite Hn. simpl. apply Z.leb_gt in Hl. rewrite Hl, Hok. simpl.
  rewrite Ht. reflexivity.
Qed.

(** A fetch that yields a page got a 2xx answer before the timer. *)
Lemma fetchPage_inr i url seconds w html finalUrl w' :
  fetchPage net i url seconds w = (inr (html, finalUrl), w') ->
  exists latency r,
    net (List.length w) url = Responds latency r
    /\ (latency < timerDelay (seconds * 1000))%Z
    /\ ok r = true
    /\ responseText r = inr html
    /\ finalUrl = responseUrl r
    /\ w' = w ++ [requestFor url seconds].
Proof.
  unfold fetchPage, tryCatch, bind, fetch.
  destruct (timerDelay (seconds * 1000) <=? latencyOf (net (List.length w) url))%Z eqn:Hl.
  - simpl. discriminate.
  - destruct (net (List.length w) url) as [latency r|latency e] eqn:Hn.
    + simpl in Hl. destruct (ok r) eqn:Hok; simpl.
      * destruct (responseText r) as [e|h] eqn:Ht; simpl.
        -- destruct (isAbortError e); discriminate.
        -- intros H; inversion H; subst.
           exists latency, r. apply Z.leb_gt in Hl. now repeat split.
      * discriminate.
    + destruct (isAbortError e); discriminate.
Qed.

(** Whatever happens, the fetch step issues exactly one request. *)
Lemma fetchPage_world i url seconds w :
  snd (fetchPage net i url seconds w) = w ++ [requestFor url seconds].
Proof.
  unfold fetchPage, tryCatch, bind, fetch.
  destruct (timerDelay (seconds * 1000) <=? latencyOf (net (List.length w) url))%Z;
    [reflexivity|].
  destruct (net (List.length w) url) as [latency r|latency e].
  - destruct (ok r); simpl; [|reflexivity].
    destruct (responseText r) as [e|h]; simpl; [|reflexivity].
    destruct (isAbortError e); reflexivity.
  - destruct (isAbortError e); reflexivity.
Qed.

End FetchFacts.


(* ===================================================================== *)
(** ** One input item *)
(* ===================================================================== *)

Section ItemFacts.

Variable escape : jsstring -> jsstring.
Variable commonmarkRules : Turndown.Options -> list Rule.
Variable parseHTML : jsstring -> list Node.
Variable parseArticle : jsstring -> jsstring -> option Article.
Variable net : nat -> jsstring -> NetReply.
Variable toISOString : nat -> jsstring.

Local Notation "'process_item'" :=
  (processItem escape commonmarkRules parseHTML parseArticle net toISOString)
  (only parsing).
Local Notation "'render_markdown'" :=
  (renderMarkdown escape commonmarkRules parseHTML toISOString)
  (only parsing).

(** A successful item: the URL was there, a 2xx answer came before the
    timer, its body was read, and the extractor found an article. *)
Lemma processItem_inr i item w json w' :
  process_item i item w = (inr json, w') ->
  exists c u latency r html article,
    url item = Some (c :: u)
    /\ net (List.length w) (c :: u) = Responds latency r
    /\ (latency < timerDelay (timeoutOf (options item) * 1000))%Z
    /\ ok r = true
    /\ responseText r = inr html
    /\ parseArticle html (responseUrl r) = Some article
    /\ w' = w ++ [requestFor (c :: u) (timeoutOf (options item))]
    /\ json = Success (responseUrl r) (title article) (byline article)
                      (excerpt article) (siteName article)
                      (render_markdown i (options item) article (responseUrl r))
                      (List.length
                         (render_markdown i (options item) article (responseUrl r))).
Proof.
  unfold processItem.
  destruct (url item) as [[|c u]|] eqn:Hu; try discriminate.
  unfold bind at 1.
  destruct (fetchPage net i (c :: u) (timeoutOf (options item)) w)
    as [[e|[html finalUrl]] w1] eqn:Hf; [discriminate|].
  apply fetchPage_inr in Hf as (latency & r & Hn & Hl & Hok & Ht & -> & ->).
  destruct (parseArticle html (responseUrl r)) as [article|] eqn:Ha;
    [|discriminate].
  unfold ret. intros H; inversion H; subst.
  exists c, u, latency, r, html, article. repeat split; assumption.
Qed.

(** C7. An item whose URL parameter is missing or the empty string fails
    with the node's "URL is required" error, and the list of issued
    requests is left as it was: no fetch is attempted for that item. *)
Theorem missing_url_fails_before_fetch i item w :
  url item = None \/ url item = Some [] ->
  process_item i item w
  = (inl (NodeOperationError (js "URL is required") i), w).
Proof.
  unfold processItem.
  intros [H|H]; rewrite H; reflexivity.
Qed.

(** C9. When the timeout option is absent, zero or [NaN], the timeout in
    effect is 30 seconds: the request of the item is issued with its abort
    timer at 30000 ms; a supplied 0 is replaced by 30. *)
Theorem falsy_timeout_defaults_to_30 i item c u w :
  falsyNumber (timeout (options item)) = true ->
  url item = Some (c :: u) ->
  timeoutOf (options item) = 30%Z
  /\ snd (process_item i item w)
     = w ++ [{| requestUrl := c :: u;
                requestHeaders := browserHeaders;
                abortAfterMs := 30000 |}].
Proof.
  intros Hf Hu.
  assert (Ht : timeoutOf (options item) = 30%Z).
  { unfold timeoutOf, numberOr. unfold falsyNumber in Hf.
    destruct (timeout (options item)) as [[z|]|]; try reflexivity.
    now rewrite Hf. }
  split; [exact Ht|].
  unfold processItem. rewrite Hu, Ht.
  unfold bind at 1.
  pose proof (fetchPage_world net i (c :: u) 30 w) as Hw.
  destruct (fetchPage net i (c :: u) 30 w) as [[e|[html finalUrl]] w1];
    simpl in Hw; subst w1; [reflexivity|].
  destruct (parseArticle html finalUrl); reflexivity.
Qed.


(** C5 (as the code has it). When the page was fetched -- a 2xx reply
    that came before the abort timer fired, the timer waiting the timeout
    in effect times 1000 milliseconds, or 1 millisecond when that product
    is below 1 or above 2147483647 -- and the extractor finds no article
    in its markup, the item fails with the node's error whose message is
    "Failed to parse article content from the page". *)
Theorem no_article_fails_with_parse_message i item c u w latency r html :
  url item = Some (c :: u) ->
  net (List.length w) (c :: u) = Responds latency r ->
  (latency < timerDelay (timeoutOf (options item) * 1000))%Z ->
  ok r = true ->
  responseText r = inr html ->
  parseArticle html (responseUrl r) = None ->
  process_item i item w
  = (inl (NodeOperationError
            (js "Failed to parse article content from the page") i),
     w ++ [requestFor (c :: u) (timeoutOf (options item))]).
Proof.
  intros Hu Hn Hl Hok Ht Ha.
  unfold processItem. rewrite Hu.
  unfold bind at 1.
  rewrite (fetchPage_ok net i (c :: u) _ w Hn Hl Hok Ht).
  rewrite Ha. reflexivity.
Qed.

(** C10. On a successful item the record's [contentLength] is the length
    of the record's [markdown] -- which is the frontmatter block followed
    by the converted body when the frontmatter is asked for -- and the
    record's [url] is the URL the response reports after redirects. *)
Theorem success_record_length_and_final_url
        i item w url' title' byline' excerpt' siteName' markdown' n w' :
  process_item i item w
  = (inr (Success url' title' byline' excerpt' siteName' markdown' n), w') ->
  n = List.length markdown'
  /\ exists requested latency r html article,
       url item = Some requested
       /\ net (List.length w) requested = Responds latency r
       /\ url' = responseUrl r
       /\ responseText r = inr html
       /\ parseArticle html url' = Some article
       /\ (includeFrontmatterOf (options item) = true ->
           markdown'
           = join [LF] (frontmatterLines article url' (toISOString i))
             ++ turndown escape parseHTML
                  (serviceFor commonmarkRules (options item)) (content article))
       /\ (includeFrontmatterOf (options item) = false ->
           markdown'
           = turndown escape parseHTML
               (serviceFor commonmarkRules (options item)) (content article)).
Proof.
  intros H.
  apply processItem_inr in H
    as (c & u & latency & r & html & article
        & Hu & Hn & Hl & Hok & Ht & Ha & Hw & Hj).
  inversion Hj; subst. split; [reflexivity|].
  exists (c :: u), latency, r, html, article.
  repeat split; try assumption;
    intros Hf; unfold renderMarkdown; rewrite Hf; reflexivity.
Qed.

End ItemFacts.


(* ===================================================================== *)
(** ** The converter with the node's rules *)
(* ===================================================================== *)

Section WalkFacts.

Variable escape : jsstring -> jsstring.
Variable commonmarkRules : Turndown.Options -> list Rule.

Lemma process_inner service isCode ks : forall prev output,
  (fix process (prev : option Node) (ks : list Node) (output : jsstring)
       {struct ks} : jsstring :=
     match ks with
     | [] => output
     | k :: rest =>
         process (Some k) rest
           (joinOutput output
              (replacementFor escape service isCode prev (hd_error rest) k))
     end) prev ks output
  = processFrom escape service isCode prev ks output.
Proof.
  induction ks as [|k rest IH]; intros prev output; simpl;
    [reflexivity | apply IH].
Qed.

(** The walk over an element, in terms of [process] on its children. *)
Lemma replacementFor_element service inCode prev next nm attrs kids :
  replacementFor escape service inCode prev next (Element nm attrs kids)
  = fst (flankingWhitespace prev next (Element nm attrs kids))
    ++ replacement (forNode (rules service) (Element nm attrs kids))
         (if nonEmpty (fst (flankingWhitespace prev next (Element nm attrs kids)))
             || nonEmpty (snd (flankingWhitespace prev next (Element nm attrs kids)))
          then trim (process escape service (str_eqb nm (js "CODE") || inCode) kids)
          else process escape service (str_eqb nm (js "CODE") || inCode) kids)
         (Element nm attrs kids)
    ++ snd (flankingWhitespace prev next (Element nm attrs kids)).
Proof.
  unfold process. rewrite <- process_inner. reflexivity.
Qed.

End WalkFacts.

(** Induction on a tree, with the property for all the children. *)
Lemma Node_forall_ind (P : Node -> Prop) :
  (forall v, P (Text v)) ->
  (forall d, P (Comment d)) ->
  (forall nm attrs kids, Forall P kids -> P (Element nm attrs kids)) ->
  forall n, P n.
Proof.
  intros HT HC HE. fix IH 1. intros [v|d|nm attrs kids].
  - apply HT.
  - apply HC.
  - apply HE. induction kids as [|k kids IHk]; constructor;
      [apply IH | exact IHk].
Qed.

Lemma find_ext_Forall (A : Type) (f h : A -> bool) (P : A -> Prop) l :
  Forall P l -> (forall x, P x -> f x = h x) -> find f l = find h l.
Proof.
  intros HF Hx. induction HF as [|x l Px _ IH]; [reflexivity|].
  simpl. rewrite (Hx x Px), IH. reflexivity.
Qed.

(* ===================================================================== *)
(** ** Attributes that no rule reads do not reach the output *)
(* ===================================================================== *)

Section AttributeFacts.

Variable escape : jsstring -> jsstring.
Variable service : TurndownService.
Variable tag : jsstring.
Variable g : list (jsstring * jsstring) -> list (jsstring * jsstring).

Local Notation "'changed'" := (mapAttributesOf tag g) (only parsing).

Lemma textContent_changed n : textContent (changed n) = textContent n.
Proof.
  induction n as [v|d|nm attrs kids IH] using Node_forall_ind;
    try reflexivity.
  simpl. induction IH as [|k kids Hk _ IHk]; [reflexivity|].
  simpl. now rewrite Hk, IHk.
Qed.

Lemma isOneOf_changed names n : isOneOf names (changed n) = isOneOf names n.
Proof. destruct n; reflexivity. Qed.

Lemma isElementNamed_changed nm n :
  isElementNamed nm (changed n) = isElementNamed nm n.
Proof. destruct n; reflexivity. Qed.

Lemma hasDescendant_changed names n :
  hasDescendant names (changed n) = hasDescendant names n.
Proof.
  induction n as [v|d|nm attrs kids IH] using Node_forall_ind;
    try reflexivity.
  simpl. induction IH as [|k kids Hk _ IHk]; [reflexivity|].
  simpl. rewrite Hk, IHk. now destruct k.
Qed.

Lemma isBlank_changed n : isBlank (changed n) = isBlank n.
Proof.
  unfold isBlank, isVoid, isMeaningfulWhenBlank.
  now rewrite !isOneOf_changed, textContent_changed, !hasDescendant_changed.
Qed.

Lemma isBlock_changed n : isBlock (changed n) = isBlock n.
Proof. apply isOneOf_changed. Qed.

Lemma isFlankedByWhitespace_changed side sibling :
  isFlankedByWhitespace side (option_map changed sibling)
  = isFlankedByWhitespace side sibling.
Proof.
  destruct sibling as [[v|d|nm attrs kids]|]; try reflexivity.
  pose proof (isBlock_changed (Element nm attrs kids)) as Hb.
  pose proof (textContent_changed (Element nm attrs kids)) as Ht.
  unfold isFlankedByWhitespace, option_map.
  cbn [mapAttributesOf] in *. rewrite Hb, Ht. reflexivity.
Qed.

Lemma flankingWhitespace_changed prev next n :
  flankingWhitespace (option_map changed prev) (option_map changed next)
                     (changed n)
  = flankingWhitespace prev next n.
Proof.
  unfold flankingWhitespace.
  now rewrite isBlock_changed, textContent_changed,
    !isFlankedByWhitespace_changed.
Qed.

(** The rule of the elements named [tag] takes those that are not blank
    and gives the same text for the changed attributes; no rule of the
    array looks at their attributes from another node. *)
Variable tagRule : Rule.
Hypothesis tagRule_taken : forall attrs kids,
  isBlank (Element tag attrs kids) = false ->
  forNode (rules service) (Element tag attrs kids) = tagRule.
Hypothesis tagRule_blind : forall content attrs kids kids',
  replacement tagRule content (Element tag (g attrs) kids')
  = replacement tagRule content (Element tag attrs kids).
Hypothesis others_blind :
  Forall (ignoresAttributesOf tag g) (rules service).

Lemma forNode_changed content n :
  hasNodeName tag n = false ->
  replacement (forNode (rules service) (changed n)) content (changed n)
  = replacement (forNode (rules service) n) content n.
Proof.
  intros Hn. unfold forNode. rewrite isBlank_changed.
  destruct (isBlank n).
  - simpl. unfold blankReplacement. now rewrite isBlock_changed.
  - rewrite (find_ext_Forall (fun r => filter r (changed n))
               (fun r => filter r n) others_blind)
      by (intros r Hr; apply (Hr content n Hn)).
    destruct (find (fun r => filter r n) (rules service)) as [r|] eqn:F.
    + apply find_some in F as [Hin _].
      rewrite Forall_forall in others_blind.
      apply (others_blind r Hin content n Hn).
    + simpl. unfold defaultReplacement. now rewrite isBlock_changed.
Qed.

Lemma processFrom_changed inCode kids :
  Forall (fun k => forall inCode prev next,
              replacementFor escape service inCode
                             (option_map changed prev)
                             (option_map changed next) (changed k)
              = replacementFor escape service inCode prev next k) kids ->
  forall prev output,
    processFrom escape service inCode (option_map changed prev)
                (map changed kids) output
    = processFrom escape service inCode prev kids output.
Proof.
  induction 1 as [|k kids Hk _ IH]; intros prev output; [reflexivity|].
  simpl.
  replace (hd_error (map changed kids))
    with (option_map changed (hd_error kids)) by now destruct kids.
  rewrite Hk. apply (IH (Some k)).
Qed.

Lemma replacementFor_changed n : forall inCode prev next,
  replacementFor escape service inCode
                 (option_map changed prev) (option_map changed next)
                 (changed n)
  = replacementFor escape service inCode prev next n.
Proof.
  induction n as [v|d|nm attrs kids IH] using Node_forall_ind;
    intros inCode prev next; try reflexivity.
  pose proof (flankingWhitespace_changed prev next (Element nm attrs kids))
    as Hw.
  assert (Hp : process escape service (str_eqb nm (js "CODE") || inCode)
                       (map changed kids)
               = process escape service (str_eqb nm (js "CODE") || inCode) kids).
  { unfold process. apply (processFrom_changed _ IH None). }
  assert (Hr : forall content,
             replacement (forNode (rules service)
                                  (changed (Element nm attrs kids)))
                         content (changed (Element nm attrs kids))
             = replacement (forNode (rules service) (Element nm attrs kids))
                           content (Element nm attrs kids)).
  { intros content. destruct (str_eqb nm tag) eqn:Hnm.
    - pose proof (isBlank_changed (Element nm attrs kids)) as Hb.
      simpl mapAttributesOf in *. rewrite Hnm in *.
      apply str_eqb_eq in Hnm. subst nm.
      destruct (isBlank (Element tag attrs kids)) eqn:Hblank.
      + unfold forNode. rewrite Hb, Hblank. reflexivity.
      + rewrite !tagRule_taken by assumption. apply tagRule_blind.
    - apply forNode_changed. exact Hnm. }
  simpl mapAttributesOf in *.
  rewrite !replacementFor_element, Hw, Hp, Hr. reflexivity.
Qed.

(** The whole document renders the same with the changed attributes. *)
Lemma process_changed inCode doc :
  process escape service inCode (map changed doc)
  = process escape service inCode doc.
Proof.
  unfold process.
  assert (H : Forall (fun k => forall inCode prev next,
                        replacementFor escape service inCode
                          (option_map changed prev)
                          (option_map changed next) (changed k)
                        = replacementFor escape service inCode prev next k) doc).
  { apply Forall_forall. intros k _. apply replacementFor_changed. }
  apply (processFrom_changed inCode H None).
Qed.

End AttributeFacts.

Section RuleFacts.

Variable escape : jsstring -> jsstring.
Variable commonmarkRules : Turndown.Options -> list Rule.
Variable parseHTML : jsstring -> list Node.
Variable toISOString : nat -> jsstring.

(** HTML links and images are never blank nodes, so the blank rule never
    takes them. *)
Lemma link_not_blank attrs kids : isBlank (Element (js "A") attrs kids) = false.
Proof. reflexivity. Qed.

Lemma image_not_blank attrs kids : isBlank (Element (js "IMG") attrs kids) = false.
Proof. reflexivity. Qed.

(** The filters ['a'] and ['img'] take the HTML elements [A] and [IMG] and
    the foreign elements [a] and [img]; the added rule is the one chosen
    for each of them that is not blank. *)
Lemma forNode_link o nm attrs kids :
  includeLinks o = Some false ->
  nm = js "A" \/ nm = js "a" ->
  isBlank (Element nm attrs kids) = false ->
  forNode (rules (serviceFor commonmarkRules o)) (Element nm attrs kids)
  = removeLinks.
Proof.
  intros H Hnm Hb. unfold forNode. rewrite Hb.
  unfold serviceFor, configureService, includeLinksOf. rewrite H.
  destruct Hnm; subst nm; destruct (imageHandlingOf o); reflexivity.
Qed.

Lemma forNode_image_remove o nm attrs kids :
  imageHandling o = Some remove ->
  nm = js "IMG" \/ nm = js "img" ->
  isBlank (Element nm attrs kids) = false ->
  forNode (rules (serviceFor commonmarkRules o)) (Element nm attrs kids)
  = removeImages.
Proof.
  intros H Hnm Hb. unfold forNode. rewrite Hb.
  unfold serviceFor, configureService, imageHandlingOf. rewrite H.
  destruct Hnm; subst nm; reflexivity.
Qed.

Lemma forNode_image_altText o nm attrs kids :
  imageHandling o = Some altText ->
  nm = js "IMG" \/ nm = js "img" ->
  isBlank (Element nm attrs kids) = false ->
  forNode (rules (serviceFor commonmarkRules o)) (Element nm attrs kids)
  = imageAltText.
Proof.
  intros H Hnm Hb. unfold forNode. rewrite Hb.
  unfold serviceFor, configureService, imageHandlingOf. rewrite H.
  destruct Hnm; subst nm; reflexivity.
Qed.

(** An element without text has no white space to hoist. *)
Lemma flankingWhitespace_image prev next attrs :
  flankingWhitespace prev next (Element (js "IMG") attrs []) = ([], []).
Proof. reflexivity. Qed.

(** A replacement that does not start with a line feed is joined to the
    empty output as it is. *)
Lemma joinOutput_first r :
  (forall c, hd_error r = Some c -> c <> LF) -> joinOutput [] r = r.
Proof.
  intros H. unfold joinOutput, trimTrailingNewlines, trimLeadingNewlines,
    dropWhileEnd. simpl rev. simpl dropWhile at 1. simpl rev.
  assert (E : dropWhile isLF r = r).
  { destruct r as [|c r]; [reflexivity|]. simpl. unfold isLF.
    destruct (N.eqb_spec c LF) as [->|_]; [|reflexivity].
    exfalso. now apply (H LF). }
  rewrite E, !Nat.sub_diag. reflexivity.
Qed.

Lemma dropWhile_nil_iff p s : dropWhile p s = [] <-> forallb p s = true.
Proof.
  induction s as [|x s IH]; simpl; [tauto|].
  destruct (p x); simpl; [exact IH|]. split; discriminate.
Qed.

Lemma dropWhile_snoc_keep p s x : p x = false -> dropWhile p (s ++ [x]) <> [].
Proof.
  intros Hx. induction s as [|y s IH]; simpl.
  - rewrite Hx. discriminate.
  - destruct (p y); [exact IH | discriminate].
Qed.

Lemma trim_nonEmpty a : nonEmpty (trim a) = negb (forallb isWhitespace a).
Proof.
  unfold trim, dropWhileEnd.
  destruct (forallb isWhitespace a) eqn:E.
  - apply dropWhile_nil_iff in E. rewrite E. reflexivity.
  - destruct (dropWhile isWhitespace a) as [|x t] eqn:D.
    + apply dropWhile_nil_iff in D. congruence.
    + assert (Hx : isWhitespace x = false).
      { apply (dropWhile_head isWhitespace a). rewrite D. reflexivity. }
      simpl rev.
      pose proof (dropWhile_snoc_keep isWhitespace (rev t) x Hx) as Hne.
      destruct (dropWhile isWhitespace (rev t ++ [x])) as [|y r] eqn:R;
        [contradiction|].
      simpl. destruct (rev r ++ [y]) eqn:Q; [|reflexivity].
      destruct (rev r); discriminate.
Qed.

(** The replacement of the [imageAltText] rule is the placeholder of the
    specification. *)
Lemma imageAltText_placeholder content nm attrs kids :
  imageAltTextReplacement content (Element nm attrs kids)
  = placeholderPerSpec (lookupAttribute (js "alt") attrs).
Proof.
  unfold imageAltTextReplacement, placeholderPerSpec. simpl.
  destruct (lookupAttribute (js "alt") attrs) as [a|]; [|reflexivity].
  rewrite trim_nonEmpty.
  destruct a as [|c a]; [reflexivity|].
  simpl nonEmpty. rewrite andb_true_l.
  destruct (forallb isWhitespace (c :: a)); reflexivity.
Qed.

(** The rules the node adds look at the node they are applied to only. *)
Lemma getAttribute_changed tag g name n :
  hasNodeName tag n = false ->
  getAttribute (mapAttributesOf tag g n) name = getAttribute n name.
Proof.
  destruct n as [v|d|nm attrs kids]; try reflexivity.
  simpl. now intros ->.
Qed.

Lemma removeLinks_ignores tag g : ignoresAttributesOf tag g removeLinks.
Proof.
  intros content n _. split; [|reflexivity].
  apply isElementNamed_changed.
Qed.

Lemma removeImages_ignores tag g : ignoresAttributesOf tag g removeImages.
Proof.
  intros content n _. split; [|reflexivity].
  apply isElementNamed_changed.
Qed.

Lemma imageAltText_ignores tag g : ignoresAttributesOf tag g imageAltText.
Proof.
  intros content n Hn. split; [apply isElementNamed_changed|].
  simpl. unfold imageAltTextReplacement.
  now rewrite getAttribute_changed.
Qed.

Lemma serviceFor_rules_ignore tag g o :
  (forall opts, Forall (ignoresAttributesOf tag g) (commonmarkRules opts)) ->
  Forall (ignoresAttributesOf tag g) (rules (serviceFor commonmarkRules o)).
Proof.
  intros H. unfold serviceFor, configureService.
  destruct (includeLinksOf o), (imageHandlingOf o); simpl;
    repeat (constructor;
            try apply removeLinks_ignores;
            try apply removeImages_ignores;
            try apply imageAltText_ignores);
    apply H.
Qed.

Lemma lookupAttribute_onlyAlt attrs :
  lookupAttribute (js "alt") (onlyAlt attrs) = lookupAttribute (js "alt") attrs.
Proof.
  unfold onlyAlt. destruct (lookupAttribute (js "alt") attrs); reflexivity.
Qed.

(** The renderings with the attributes of the elements [tag] changed, for
    the output of the node. *)
Lemma renderMarkdown_changed tag g tagRule i o article finalUrl :
  (forall attrs kids,
     isBlank (Element tag attrs kids) = false ->
     forNode (rules (serviceFor commonmarkRules o)) (Element tag attrs kids)
     = tagRule) ->
  (forall content attrs kids kids',
     replacement tagRule content (Element tag (g attrs) kids')
     = replacement tagRule content (Element tag attrs kids)) ->
  (forall opts, Forall (ignoresAttributesOf tag g) (commonmarkRules opts)) ->
  renderMarkdown escape commonmarkRules
                 (fun input => map (mapAttributesOf tag g) (parseHTML input))
                 toISOString i o article finalUrl
  = renderMarkdown escape commonmarkRules parseHTML toISOString
                   i o article finalUrl.
Proof.
  intros Htaken Hblind Hcm. unfold renderMarkdown, turndown.
  destruct (content article) as [|c input]; [reflexivity|].
  rewrite (@process_changed escape (serviceFor commonmarkRules o) tag g
             tagRule Htaken Hblind (@serviceFor_rules_ignore tag g o Hcm)).
  reflexivity.
Qed.

Lemma placeholderPerSpec_head alt c :
  hd_error (placeholderPerSpec alt) = Some c -> c <> LF.
Proof.
  unfold placeholderPerSpec.
  destruct alt as [a|]; [destruct (forallb isWhitespace a)|];
    simpl; intros H; injection H as <-; discriminate.
Qed.

(** C2 (as the code has it). With [includeLinks = false], every element
    that the filter ['a'] takes -- the HTML element [A], which is never
    blank, and a foreign [a] that is not blank -- is rendered, at any
    place of any tree and under any built-in rules and image handling, as
    the converted content of its children and nothing else (the white
    space at the edges of its text is moved outside, as for every inline
    element): no [[text](href)] wrapper is put around it and its text is
    kept.  In the output of the node: the markdown of a document that is
    one link is that content, post-processed; and the markdown of any
    document is the same when the attributes of its links are changed at
    will, so the href and the title are discarded (given built-in rules
    that, like those of the package, do not read the attributes of links
    from the other elements). *)
Theorem links_render_as_their_content o :
  includeLinks o = Some false ->
  (forall nm attrs kids inCode prev next,
     nm = js "A" \/ nm = js "a" ->
     isBlank (Element nm attrs kids) = false ->
     replacementFor escape (serviceFor commonmarkRules o) inCode prev next
                    (Element nm attrs kids)
     = hoisted (flankingWhitespace prev next (Element nm [] kids))
               (process escape (serviceFor commonmarkRules o) inCode kids))
  /\ (forall attrs kids, isBlank (Element (js "A") attrs kids) = false)
  /\ (forall i article finalUrl attrs kids,
        includeFrontmatterOf o = false ->
        content article <> [] ->
        parseHTML (content article) = [Element (js "A") attrs kids] ->
        renderMarkdown escape commonmarkRules parseHTML toISOString
                       i o article finalUrl
        = postProcess (serviceFor commonmarkRules o)
            (joinOutput []
               (hoisted (flankingWhitespace None None (Element (js "A") [] kids))
                        (process escape (serviceFor commonmarkRules o)
                                 false kids))))
  /\ (forall tag g i article finalUrl,
        tag = js "A" \/ tag = js "a" ->
        (forall opts,
           Forall (ignoresAttributesOf tag g) (commonmarkRules opts)) ->
        renderMarkdown escape commonmarkRules
                       (fun input => map (mapAttributesOf tag g) (parseHTML input))
                       toISOString i o article finalUrl
        = renderMarkdown escape commonmarkRules parseHTML toISOString
                         i o article finalUrl).
Proof.
  intros H.
  assert (E : forall nm attrs kids inCode prev next,
             nm = js "A" \/ nm = js "a" ->
             isBlank (Element nm attrs kids) = false ->
             replacementFor escape (serviceFor commonmarkRules o) inCode
                            prev next (Element nm attrs kids)
             = hoisted (flankingWhitespace prev next (Element nm [] kids))
                       (process escape (serviceFor commonmarkRules o)
                                inCode kids)).
  { intros nm attrs kids inCode prev next Hnm Hb.
    rewrite replacementFor_element, forNode_link by assumption.
    destruct Hnm; subst nm; reflexivity. }
  split; [exact E|]. split; [intros; reflexivity|]. split.
  - intros i article finalUrl attrs kids Hf Hc Hp.
    unfold renderMarkdown, turndown. rewrite Hf.
    destruct (content article) as [|c input] eqn:Hcontent;
      [contradiction|].
    rewrite Hp. unfold process at 1. cbn [processFrom hd_error].
    rewrite E by (try (left; reflexivity); reflexivity).
    reflexivity.
  - intros tag g i article finalUrl Htag Hcm.
    apply renderMarkdown_changed with (tagRule := removeLinks).
    + intros attrs kids Hb. now apply forNode_link.
    + reflexivity.
    + exact Hcm.
Qed.

(** C3 (as the code has it). With [imageHandling = remove] every HTML
    image element is rendered as the empty string; with
    [imageHandling = altText] it is rendered as the bracketed, trimmed alt
    text when the alt attribute is there and not all white space, and as
    the unlabeled-image placeholder otherwise.  Both hold at any place of
    any tree, under any built-in rules and any link handling.  In the
    output of the node: the markdown of a document that is one image is
    that text, post-processed; and the markdown of any document is the
    same when every image keeps nothing but its alt attribute, so the src
    is not read (given built-in rules that, like those of the package, do
    not read the attributes of images from the other elements). *)
Theorem images_removed_or_replaced_by_alt_text o :
  (imageHandling o = Some remove ->
   (forall inCode prev next attrs,
      replacementFor escape (serviceFor commonmarkRules o) inCode prev next
                     (Element (js "IMG") attrs []) = [])
   /\ (forall i article finalUrl attrs,
         includeFrontmatterOf o = false ->
         content article <> [] ->
         parseHTML (content article) = [Element (js "IMG") attrs []] ->
         renderMarkdown escape commonmarkRules parseHTML toISOString
                        i o article finalUrl
         = postProcess (serviceFor commonmarkRules o) []))
  /\ (imageHandling o = Some altText ->
      (forall inCode prev next attrs,
         replacementFor escape (serviceFor commonmarkRules o) inCode prev next
                        (Element (js "IMG") attrs [])
         = placeholderPerSpec (lookupAttribute (js "alt") attrs))
      /\ (forall i article finalUrl attrs,
            includeFrontmatterOf o = false ->
            content article <> [] ->
            parseHTML (content article) = [Element (js "IMG") attrs []] ->
            renderMarkdown escape commonmarkRules parseHTML toISOString
                           i o article finalUrl
            = postProcess (serviceFor commonmarkRules o)
                (placeholderPerSpec (lookupAttribute (js "alt") attrs))))
  /\ (imageHandling o = Some remove \/ imageHandling o = Some altText ->
      forall tag i article finalUrl,
        tag = js "IMG" \/ tag = js "img" ->
        (forall opts,
           Forall (ignoresAttributesOf tag onlyAlt) (commonmarkRules opts)) ->
        renderMarkdown escape commonmarkRules
                       (fun input =>
                          map (mapAttributesOf tag onlyAlt) (parseHTML input))
                       toISOString i o article finalUrl
        = renderMarkdown escape commonmarkRules parseHTML toISOString
                         i o article finalUrl).
Proof.
  assert (Eremove : imageHandling o = Some remove ->
            forall inCode prev next attrs,
              replacementFor escape (serviceFor commonmarkRules o) inCode
                             prev next (Element (js "IMG") attrs []) = []).
  { intros H inCode prev next attrs.
    rewrite replacementFor_element, forNode_image_remove;
      try assumption; try reflexivity. left; reflexivity. }
  assert (Ealt : imageHandling o = Some altText ->
            forall inCode prev next attrs,
              replacementFor escape (serviceFor commonmarkRules o) inCode
                             prev next (Element (js "IMG") attrs [])
              = placeholderPerSpec (lookupAttribute (js "alt") attrs)).
  { intros H inCode prev next attrs.
    rewrite replacementFor_element, forNode_image_altText;
      try assumption; try reflexivity; [|left; reflexivity].
    rewrite flankingWhitespace_image. simpl fst; simpl snd.
    rewrite app_nil_r. simpl app.
    change (replacement imageAltText) with imageAltTextReplacement.
    simpl orb. cbv iota. apply imageAltText_placeholder. }
  split; [|split].
  - intros H. split; [now apply Eremove|].
    intros i article finalUrl attrs Hf Hc Hp.
    unfold renderMarkdown, turndown. rewrite Hf.
    destruct (content article) as [|c input]; [contradiction|].
    rewrite Hp. unfold process. cbn [processFrom hd_error].
    rewrite Eremove by exact H. reflexivity.
  - intros H. split; [now apply Ealt|].
    intros i article finalUrl attrs Hf Hc Hp.
    unfold renderMarkdown, turndown. rewrite Hf.
    destruct (content article) as [|c input]; [contradiction|].
    rewrite Hp. unfold process. cbn [processFrom hd_error].
    rewrite Ealt by exact H.
    rewrite joinOutput_first by apply placeholderPerSpec_head.
    reflexivity.
  - intros [H|H] tag i article finalUrl Htag Hcm.
    + apply renderMarkdown_changed with (tagRule := removeImages).
      * intros attrs kids Hb. now apply forNode_image_remove.
      * reflexivity.
      * exact Hcm.
    + apply renderMarkdown_changed with (tagRule := imageAltText).
      * intros attrs kids Hb. now apply forNode_image_altText.
      * intros content attrs kids kids'. simpl.
        unfold imageAltTextReplacement. simpl.
        now rewrite lookupAttribute_onlyAlt.
      * exact Hcm.
Qed.

End RuleFacts.


(* ===================================================================== *)
(** ** The frontmatter block *)
(* ===================================================================== *)

Lemma quotesFollowBackslash_split s : forall prev pre post,
  quotesFollowBackslash prev s ->
  s = pre ++ QUOTE :: post ->
  exists pre', prev :: pre = pre' ++ [BACKSLASH].
Proof.
  induction s as [|c s IH]; intros prev pre post Hq He.
  - destruct pre; discriminate.
  - destruct Hq as [Hc Hs]. destruct pre as [|p pre].
    + simpl in He. injection He as -> _. exists []. simpl. now rewrite Hc.
    + simpl in He. injection He as <- He.
      destruct (IH c pre post Hs He) as [pre' E].
      exists (prev :: pre'). simpl. now rewrite E.
Qed.

Lemma escapeQuotes_follow prev s : quotesFollowBackslash prev (escapeQuotes s).
Proof.
  revert prev. induction s as [|c s IH]; intros prev; [exact I|].
  unfold escapeQuotes; simpl. fold (escapeQuotes s).
  destruct (N.eqb_spec c QUOTE) as [->|Hc]; simpl.
  - repeat split; try discriminate; auto.
  - split; [intros; contradiction | apply IH].
Qed.

Lemma escapeQuotes_quotesEscaped s : quotesEscaped (escapeQuotes s).
Proof.
  intros pre post He.
  destruct (@quotesFollowBackslash_split (escapeQuotes s) 0%N pre post
              (escapeQuotes_follow 0%N s) He) as [[|x pre'] E].
  - discriminate E.
  - injection E as _ E. now exists pre'.
Qed.

(** The two replacements of the excerpt touch different code units, so
    their order does not matter. *)
Lemma escapedExcerpt_perSpec e : escapedExcerpt e = excerptPerSpec e.
Proof.
  unfold escapedExcerpt, excerptPerSpec, newlinesToSpaces, escapeQuotes.
  induction e as [|c e IH]; [reflexivity|].
  simpl. rewrite map_app, IH. f_equal.
  destruct (N.eqb_spec c QUOTE) as [->|Hq]; [reflexivity|].
  destruct (N.eqb_spec c LF) as [->|Hl]; [reflexivity|].
  simpl. destruct (N.eqb_spec c LF); [contradiction|].
  destruct (N.eqb_spec c QUOTE); [contradiction|reflexivity].
Qed.

Lemma newlinesToSpaces_no_LF s : ~ In LF (newlinesToSpaces s).
Proof.
  unfold newlinesToSpaces. intros H. apply in_map_iff in H as (c & Hc & _).
  destruct (N.eqb_spec c LF); [discriminate | contradiction].
Qed.

Lemma yamlLine_no_LF name v :
  ~ In LF (js name) -> ~ In LF v -> ~ In LF (yamlLine name v).
Proof.
  intros Hn Hv H. unfold yamlLine in H.
  repeat (apply in_app_or in H as [H|H]); try contradiction;
    simpl in H; repeat (destruct H as [H|H]; try discriminate); contradiction.
Qed.

Lemma whenTruthy_In v f c s :
  v = Some (c :: s) -> In (f (c :: s)) (whenTruthy v f).
Proof. intros ->. simpl. now left. Qed.

Lemma quote_free_quotesEscaped s : ~ In QUOTE s -> quotesEscaped s.
Proof.
  intros H pre post E. exfalso. apply H. rewrite E.
  apply in_or_app. right. now left.
Qed.

(** X16. The fields of the block that come from the article have their
    embedded double quotes escaped as backslash, quote.  For the title,
    the author and the site the emitted value is the field with every
    double quote escaped.  For the excerpt it is the one the specification
    describes -- line feeds replaced by single spaces, quotes escaped,
    which gives the same text as the code's order, escaping first -- so
    the excerpt line has no line feed and every double quote of its value
    follows a backslash.  The url and the date are emitted as they are,
    so they have their quotes escaped only when they hold none.  The block
    has no other lines than these and the two [---] lines. *)
Theorem frontmatter_strings_are_escaped
        (article : Article) (finalUrl now : jsstring) :
  (forall x t, title article = Some (x :: t) ->
     In (yamlLine "title" (escapeQuotes (x :: t)))
        (frontmatterLines article finalUrl now)
     /\ quotesEscaped (escapeQuotes (x :: t)))
  /\ (forall x b, byline article = Some (x :: b) ->
        In (yamlLine "author" (escapeQuotes (x :: b)))
           (frontmatterLines article finalUrl now)
        /\ quotesEscaped (escapeQuotes (x :: b)))
  /\ (forall x s, siteName article = Some (x :: s) ->
        In (yamlLine "site" (escapeQuotes (x :: s)))
           (frontmatterLines article finalUrl now)
        /\ quotesEscaped (escapeQuotes (x :: s)))
  /\ (forall c e, excerpt article = Some (c :: e) ->
        In (yamlLine "excerpt" (excerptPerSpec (c :: e)))
           (frontmatterLines article finalUrl now)
        /\ escapedExcerpt (c :: e) = excerptPerSpec (c :: e)
        /\ ~ In LF (yamlLine "excerpt" (excerptPerSpec (c :: e)))
        /\ quotesEscaped (excerptPerSpec (c :: e)))
  /\ (In (yamlLine "url" finalUrl) (frontmatterLines article finalUrl now)
      /\ (~ In QUOTE finalUrl -> quotesEscaped finalUrl))
  /\ (In (yamlLine "date" now) (frontmatterLines article finalUrl now)
      /\ (~ In QUOTE now -> quotesEscaped now))
  /\ (forall line, In line (frontmatterLines article finalUrl now) ->
        line = js "---" \/ line = []
        \/ line = yamlLine "url" finalUrl \/ line = yamlLine "date" now
        \/ (exists t, title article = Some t
                      /\ line = yamlLine "title" (escapeQuotes t))
        \/ (exists b, byline article = Some b
                      /\ line = yamlLine "author" (escapeQuotes b))
        \/ (exists s, siteName article = Some s
                      /\ line = yamlLine "site" (escapeQuotes s))
        \/ (exists e, excerpt article = Some e
                      /\ line = yamlLine "excerpt" (excerptPerSpec e))).
Proof.
  unfold frontmatterLines.
  split; [|split; [|split; [|split; [|split; [|split]]]]].
  - intros x t Ht. split; [|apply escapeQuotes_quotesEscaped].
    apply in_or_app; right. apply in_or_app; left.
    now apply (whenTruthy_In (fun t => yamlLine "title" (escapeQuotes t))).
  - intros x b Hb. split; [|apply escapeQuotes_quotesEscaped].
    do 3 (apply in_or_app; right). apply in_or_app; left.
    now apply (whenTruthy_In (fun t => yamlLine "author" (escapeQuotes t))).
  - intros x t Ht. split; [|apply escapeQuotes_quotesEscaped].
    do 4 (apply in_or_app; right). apply in_or_app; left.
    now apply (whenTruthy_In (fun t => yamlLine "site" (escapeQuotes t))).
  - intros c e He. repeat split.
    + rewrite <- escapedExcerpt_perSpec.
      do 5 (apply in_or_app; right). apply in_or_app; left.
      now apply (whenTruthy_In (fun e => yamlLine "excerpt" (escapedExcerpt e))).
    + apply escapedExcerpt_perSpec.
    + rewrite <- escapedExcerpt_perSpec. apply yamlLine_no_LF.
      * simpl. intros H. repeat (destruct H as [H|H]; try discriminate).
        exact H.
      * apply newlinesToSpaces_no_LF.
    + apply escapeQuotes_quotesEscaped.
  - split; [|apply quote_free_quotesEscaped].
    do 2 (apply in_or_app; right). apply in_or_app; left. now left.
  - split; [|apply quote_free_quotesEscaped].
    do 6 (apply in_or_app; right). apply in_or_app; left. now left.
  - intros line Hin.
    repeat (apply in_app_or in Hin as [Hin|Hin]);
      try (destruct Hin as [<-|[]]; tauto).
    + destruct (title article) as [[|x t]|]; simpl in Hin; try contradiction.
      destruct Hin as [<-|[]]. do 4 right. left. now exists (x :: t).
    + destruct (byline article) as [[|x t]|]; simpl in Hin; try contradiction.
      destruct Hin as [<-|[]]. do 5 right. left. now exists (x :: t).
    + destruct (siteName article) as [[|x t]|]; simpl in Hin;
        try contradiction.
      destruct Hin as [<-|[]]. do 6 right. left. now exists (x :: t).
    + destruct (excerpt article) as [[|x t]|]; simpl in Hin;
        try contradiction.
      destruct Hin as [<-|[]]. do 7 right. exists (x :: t).
      split; [reflexivity|]. now rewrite <- escapedExcerpt_perSpec.
Qed.

Lemma addFrontmatter_unlines article finalUrl now markdown :
  addFrontmatter article finalUrl now markdown
  = unlines ([js "---"]
             ++ whenTruthy (title article)
                  (fun t => yamlLine "title" (escapeQuotes t))
             ++ [yamlLine "url" finalUrl]
             ++ (whenTruthy (byline article)
                   (fun b => yamlLine "author" (escapeQuotes b))
                 ++ whenTruthy (siteName article)
                      (fun s => yamlLine "site" (escapeQuotes s))
                 ++ whenTruthy (excerpt article)
                      (fun e => yamlLine "excerpt" (escapedExcerpt e))
                 ++ [yamlLine "date" now])
             ++ [js "---"])
    ++ markdown.
Proof.
  unfold addFrontmatter, frontmatterLines. rewrite <- join_unlines.
  f_equal. f_equal. rewrite <- !app_assoc. reflexivity.
Qed.

(** A body that comes right after the line feed of the closing [---] line
    is not separated from it by a blank line. *)
Lemma no_blank_line_after_closing ls body :
  ~ separatedByOneBlankLine (unlines (ls ++ [js "---"]) ++ body) body.
Proof.
  intros (block & H & _).
  rewrite app_assoc in H. apply app_inv_tail in H.
  rewrite !unlines_app in H.
  apply (f_equal (@rev N)) in H.
  rewrite !rev_app_distr in H. simpl in H. discriminate H.
Qed.

Section BlockFacts.

Variable escape : jsstring -> jsstring.
Variable commonmarkRules : Turndown.Options -> list Rule.
Variable parseHTML : jsstring -> list Node.
Variable parseArticle : jsstring -> jsstring -> option Article.
Variable net : nat -> jsstring -> NetReply.
Variable toISOString : nat -> jsstring.

(** C1 (as the code has it). With [includeFrontmatter = true] the markdown
    of a successful item is the frontmatter block followed at once by the
    converted content of the article that was extracted from the fetched
    page.  The block begins with a [---] line, has the [url:] line that
    holds the final URL of the response between double quotes, and ends
    with the closing [---] line; every line of the block, the closing one
    included, ends with one line feed.  The converted body never starts
    with a line feed, so there is no blank line between the block and the
    body. *)
Theorem frontmatter_block_then_body
        i item w url' title' byline' excerpt' siteName' markdown' n w' :
  includeFrontmatter (options item) = Some true ->
  processItem escape commonmarkRules parseHTML parseArticle net toISOString
              i item w
  = (inr (Success url' title' byline' excerpt' siteName' markdown' n), w') ->
  exists requested latency r html article,
    url item = Some requested
    /\ net (List.length w) requested = Responds latency r
    /\ url' = responseUrl r
    /\ responseText r = inr html
    /\ parseArticle html url' = Some article
    /\ markdown'
       = unlines ([js "---"]
                  ++ whenTruthy (title article)
                       (fun t => yamlLine "title" (escapeQuotes t))
                  ++ [yamlLine "url" url']
                  ++ (whenTruthy (byline article)
                        (fun b => yamlLine "author" (escapeQuotes b))
                      ++ whenTruthy (siteName article)
                           (fun s => yamlLine "site" (escapeQuotes s))
                      ++ whenTruthy (excerpt article)
                           (fun e => yamlLine "excerpt" (escapedExcerpt e))
                      ++ [yamlLine "date" (toISOString i)])
                  ++ [js "---"])
         ++ turndown escape parseHTML
              (serviceFor commonmarkRules (options item)) (content article)
    /\ (forall c,
          hd_error (turndown escape parseHTML
                      (serviceFor commonmarkRules (options item))
                      (content article)) = Some c ->
          c <> LF)
    /\ ~ separatedByOneBlankLine markdown'
          (turndown escape parseHTML
             (serviceFor commonmarkRules (options item)) (content article)).
Proof.
  intros Hf H.
  apply processItem_inr in H
    as (c & u & latency & r & html & article
        & Hu & Hn & Hl & Hok & Ht & Ha & Hw & Hj).
  inversion Hj; subst; clear Hj.
  exists (c :: u), latency, r, html, article.
  unfold renderMarkdown, includeFrontmatterOf. rewrite Hf.
  rewrite addFrontmatter_unlines.
  repeat split; try assumption.
  - apply turndown_head.
  - rewrite !app_assoc. apply no_blank_line_after_closing.
Qed.

End BlockFacts.


(* ===================================================================== *)
(** ** The batch *)
(* ===================================================================== *)

Section BatchFacts.

Variable escape : jsstring -> jsstring.
Variable commonmarkRules : Turndown.Options -> list Rule.
Variable parseHTML : jsstring -> list Node.
Variable parseArticle : jsstring -> jsstring -> option Article.
Variable net : nat -> jsstring -> NetReply.
Variable toISOString : nat -> jsstring.

Local Notation "'process_item'" :=
  (processItem escape commonmarkRules parseHTML parseArticle net toISOString)
  (only parsing).
Local Notation "'loop_with'" :=
  (loop escape commonmarkRules parseHTML parseArticle net toISOString)
  (only parsing).
Local Notation "'execute_with'" :=
  (execute escape commonmarkRules parseHTML parseArticle net toISOString)
  (only parsing).

(** One turn of the loop. *)
Lemma loop_cons continue i item rest returnData w :
  loop_with continue i (item :: rest) returnData w
  = match process_item i item w with
    | (inr json, w') => loop_with continue (S i) rest (returnData ++ [json]) w'
    | (inl error, w') =>
        if continue
        then loop_with continue (S i) rest
                       (returnData ++ [Failure (messageOf error)]) w'
        else (inl error, w')
    end.
Proof.
  simpl. unfold bind, tryCatch, ret, throw.
  destruct (process_item i item w) as [[error|json] w']; [|reflexivity].
  destruct continue; reflexivity.
Qed.

(** The loop over a batch split in two. *)
Lemma loop_app continue pre : forall i post returnData w,
  loop_with continue i (pre ++ post) returnData w
  = match loop_with continue i pre returnData w with
    | (inr returnData', w') =>
        loop_with continue (i + List.length pre) post returnData' w'
    | (inl error, w') => (inl error, w')
    end.
Proof.
  induction pre as [|item pre IH]; intros i post returnData w.
  - simpl. unfold ret. now rewrite Nat.add_0_r.
  - change ((item :: pre) ++ post) with (item :: (pre ++ post)).
    rewrite !loop_cons.
    destruct (process_item i item w) as [[error|json] w'].
    + destruct continue; [|reflexivity].
      rewrite IH. simpl List.length. now rewrite Nat.add_succ_r.
    + rewrite IH. simpl List.length. now rewrite Nat.add_succ_r.
Qed.

(** In best-effort mode the loop never throws, and it pushes one record
    per item after the records it started with. *)
Lemma loop_continue_total items : forall i returnData w,
  exists pushed w',
    loop_with true i items returnData w = (inr (returnData ++ pushed), w')
    /\ List.length pushed = List.length items.
Proof.
  induction items as [|item rest IH]; intros i returnData w.
  - exists [], w. simpl. unfold ret. now rewrite app_nil_r.
  - rewrite loop_cons.
    destruct (process_item i item w) as [[error|json] w'].
    + destruct (IH (S i) (returnData ++ [Failure (messageOf error)]) w')
        as (pushed & w'' & E & L).
      exists (Failure (messageOf error) :: pushed), w''.
      rewrite E, <- app_assoc. simpl. now rewrite L.
    + destruct (IH (S i) (returnData ++ [json]) w') as (pushed & w'' & E & L).
      exists (json :: pushed), w''.
      rewrite E, <- app_assoc. simpl. now rewrite L.
Qed.


End BatchFacts.


(* ===================================================================== *)
(** ** Worked runs *)
(* ===================================================================== *)

Example page_default_options :
  fst (Fixture.runItem 0 (Fixture.item "https://a/" Fixture.noOptions) [])
  = inr (Success Fixture.finalUrl (title Fixture.article) None
                 (excerpt Fixture.article) (siteName Fixture.article)
                 Fixture.expectedBody 50).
Proof. vm_compute. reflexivity. Qed.

Example page_links_off_alt_text :
  option_map markdownOf
    (match fst (Fixture.runItem 0 (Fixture.item "https://a/"
                                     (Fixture.linksOff (Some altText))) []) with
     | inr json => Some json
     | inl _ => None
     end)
  = Some (js "Hello world" ++ imagePlaceholderOpen ++ js "logo]").
Proof. vm_compute. reflexivity. Qed.

Example page_links_off_images_removed :
  option_map markdownOf
    (match fst (Fixture.runItem 0 (Fixture.item "https://a/"
                                     (Fixture.linksOff (Some remove))) []) with
     | inr json => Some json
     | inl _ => None
     end)
  = Some (js "Hello world").
Proof. vm_compute. reflexivity. Qed.

(** On the fixture page the markdown is the block, each of its lines
    ended by one line feed, and then the body at once; it is not "block,
    one blank line, body". *)
Lemma frontmatter_blank_line_counterexample :
  fst (Fixture.runItem 0 (Fixture.item "https://a/" Fixture.withFrontmatter) [])
  = inr (Success Fixture.finalUrl (title Fixture.article) None
                 (excerpt Fixture.article) (siteName Fixture.article)
                 (unlines (Fixture.expectedBlock ++ [js "---"])
                  ++ Fixture.expectedBody) 200)
  /\ ~ separatedByOneBlankLine
         (unlines (Fixture.expectedBlock ++ [js "---"]) ++ Fixture.expectedBody)
         Fixture.expectedBody.
Proof.
  split; [vm_compute; reflexivity | apply no_blank_line_after_closing].
Qed.

Lemma frontmatter_block_witness :
  includeFrontmatter (options (Fixture.item "https://a/" Fixture.withFrontmatter))
  = Some true
  /\ exists requested latency r html article,
       url (Fixture.item "https://a/" Fixture.withFrontmatter) = Some requested
       /\ Fixture.net (List.length (@nil Request)) requested = Responds latency r
       /\ Fixture.finalUrl = responseUrl r
       /\ responseText r = inr html
       /\ Fixture.parseArticle html Fixture.finalUrl = Some article
       /\ unlines (Fixture.expectedBlock ++ [js "---"]) ++ Fixture.expectedBody
          = unlines ([js "---"]
                     ++ whenTruthy (title article)
                          (fun t => yamlLine "title" (escapeQuotes t))
                     ++ [yamlLine "url" Fixture.finalUrl]
                     ++ (whenTruthy (byline article)
                           (fun b => yamlLine "author" (escapeQuotes b))
                         ++ whenTruthy (siteName article)
                              (fun s => yamlLine "site" (escapeQuotes s))
                         ++ whenTruthy (excerpt article)
                              (fun e => yamlLine "excerpt" (escapedExcerpt e))
                         ++ [yamlLine "date" (Fixture.toISOString 0)])
                     ++ [js "---"])
            ++ turndown Fixture.escape Fixture.parseHTML
                 (serviceFor Fixture.commonmarkRules
                    (options (Fixture.item "https://a/" Fixture.withFrontmatter)))
                 (content article)
       /\ (forall c,
             hd_error (turndown Fixture.escape Fixture.parseHTML
                         (serviceFor Fixture.commonmarkRules
                            (options (Fixture.item "https://a/"
                                                   Fixture.withFrontmatter)))
                         (content article)) = Some c ->
             c <> LF)
       /\ ~ separatedByOneBlankLine
              (unlines (Fixture.expectedBlock ++ [js "---"])
               ++ Fixture.expectedBody)
              (turndown Fixture.escape Fixture.parseHTML
                 (serviceFor Fixture.commonmarkRules
                    (options (Fixture.item "https://a/" Fixture.withFrontmatter)))
                 (content article)).
Proof.
  split; [reflexivity|].
  apply (@frontmatter_block_then_body
           Fixture.escape Fixture.commonmarkRules Fixture.parseHTML
           Fixture.parseArticle Fixture.net Fixture.toISOString
           0 (Fixture.item "https://a/" Fixture.withFrontmatter) []
           Fixture.finalUrl (title Fixture.article) None
           (excerpt Fixture.article) (siteName Fixture.article)
           (unlines (Fixture.expectedBlock ++ [js "---"]) ++ Fixture.expectedBody)
           200
           [requestFor (js "https://a/") 30]).
  - reflexivity.
  - vm_compute. reflexivity.
Defined.

(** The rules of the fixture table look at their own node only. *)
Lemma fixture_rules_ignore tag g opts :
  Forall (ignoresAttributesOf tag g) (Fixture.commonmarkRules opts).
Proof.
  unfold Fixture.commonmarkRules.
  apply Forall_cons; [|apply Forall_cons; [|apply Forall_cons;
                                              [|apply Forall_nil]]];
    intros content n Hn; simpl; unfold tagFilter;
    rewrite ?isElementNamed_changed, ?getAttribute_changed by exact Hn;
    split; reflexivity.
Qed.

(** With the links off, an alt-text placeholder followed by a text in
    parentheses still reads as a link in the output. *)
Lemma link_syntax_counterexample :
  includeLinks (Fixture3.optionsWith (Some false) (Some altText)) = Some false
  /\ Fixture3.markdownOn Fixture3.placeholderThenParenthesis
       (Fixture3.optionsWith (Some false) (Some altText))
     = Some (js "go " ++ imagePlaceholderOpen ++ js "a](https://evil.example/)")
  /\ Props3.containsLinkSyntax
       (js "go " ++ imagePlaceholderOpen ++ js "a](https://evil.example/)").
Proof.
  split; [reflexivity|]. split; [vm_compute; reflexivity|].
  exists (js "go "), [30011; 20687; 58; 32; 97]%N, (js "https://evil.example/"), [].
  vm_compute. reflexivity.
Qed.

Lemma links_render_witness :
  includeLinks (Fixture.linksOff (Some altText)) = Some false
  /\ replacementFor Fixture.escape
       (serviceFor Fixture.commonmarkRules (Fixture.linksOff (Some altText)))
       false (Some (Text (js "Hello "))) (Some Fixture.picture) Fixture.link
     = js "world"
  /\ renderMarkdown Fixture.escape Fixture.commonmarkRules
       (fun _ => [Fixture.link]) Fixture.toISOString 0
       (Fixture.linksOff (Some altText)) Fixture.article Fixture.finalUrl
     = js "world"
  /\ renderMarkdown Fixture.escape Fixture.commonmarkRules
       (fun input => map (mapAttributesOf (js "A") (fun _ => []))
                         (Fixture.parseHTML input))
       Fixture.toISOString 0
       (Fixture.linksOff (Some altText)) Fixture.article Fixture.finalUrl
     = renderMarkdown Fixture.escape Fixture.commonmarkRules Fixture.parseHTML
         Fixture.toISOString 0
         (Fixture.linksOff (Some altText)) Fixture.article Fixture.finalUrl.
Proof.
  destruct (@links_render_as_their_content
              Fixture.escape Fixture.commonmarkRules Fixture.parseHTML
              Fixture.toISOString (Fixture.linksOff (Some altText)) eq_refl)
    as (E & _ & _ & D).
  destruct (@links_render_as_their_content
              Fixture.escape Fixture.commonmarkRules (fun _ => [Fixture.link])
              Fixture.toISOString (Fixture.linksOff (Some altText)) eq_refl)
    as (_ & _ & P & _).
  split; [reflexivity|]. split; [|split].
  - unfold Fixture.link. rewrite E; [vm_compute; reflexivity | now left
                                    | reflexivity].
  - rewrite (P 0 Fixture.article Fixture.finalUrl
               [(js "href", js "https://x"); (js "title", js "t")]
               [Text (js "world")]);
      [vm_compute; reflexivity | reflexivity | discriminate | reflexivity].
  - apply D; [now left|]. intros opts. apply fixture_rules_ignore.
Defined.

(** With the images removed, an exclamation mark before a link still reads
    as an image marker; with the alt texts, a link to the picture still
    puts the picture's URL into the output. *)
Lemma image_marker_counterexample :
  (Fixture3.markdownOn Fixture3.bangBeforeLink
     (Fixture3.optionsWith None (Some remove))
   = Some (js "Wow![click](https://x/pic)")
   /\ Props3.containsImageMarker (js "Wow![click](https://x/pic)"))
  /\ (Fixture3.markdownOn Fixture3.linkedImage
        (Fixture3.optionsWith None (Some altText))
      = Some (js "[" ++ imagePlaceholderOpen ++ js "pic]](https://x/i.png)")
      /\ Props3.contains (js "https://x/i.png")
           (js "[" ++ imagePlaceholderOpen ++ js "pic]](https://x/i.png)")).
Proof.
  split; split; try (vm_compute; reflexivity).
  - exists (js "Wow"), (js "click"), (js "https://x/pic"), [].
    vm_compute. reflexivity.
  - exists (js "[" ++ imagePlaceholderOpen ++ js "pic]]("), (js ")").
    vm_compute. reflexivity.
Qed.

Lemma images_witness :
  replacementFor Fixture.escape
    (serviceFor Fixture.commonmarkRules (Fixture.linksOff (Some remove)))
    false (Some Fixture.link) None Fixture.picture
  = []
  /\ replacementFor Fixture.escape
       (serviceFor Fixture.commonmarkRules (Fixture.linksOff (Some altText)))
       false (Some Fixture.link) None Fixture.picture
     = imagePlaceholderOpen ++ js "logo]"
  /\ renderMarkdown Fixture.escape Fixture.commonmarkRules
       (fun _ => [Fixture.picture]) Fixture.toISOString 0
       (Fixture.linksOff (Some altText)) Fixture.article Fixture.finalUrl
     = imagePlaceholderOpen ++ js "logo]"
  /\ renderMarkdown Fixture.escape Fixture.commonmarkRules
       (fun input => map (mapAttributesOf (js "IMG") onlyAlt)
                         (Fixture.parseHTML input))
       Fixture.toISOString 0
       (Fixture.linksOff (Some altText)) Fixture.article Fixture.finalUrl
     = renderMarkdown Fixture.escape Fixture.commonmarkRules Fixture.parseHTML
         Fixture.toISOString 0
         (Fixture.linksOff (Some altText)) Fixture.article Fixture.finalUrl.
Proof.
  destruct (@images_removed_or_replaced_by_alt_text
              Fixture.escape Fixture.commonmarkRules Fixture.parseHTML
              Fixture.toISOString (Fixture.linksOff (Some remove)))
    as (R & _ & _).
  destruct (@images_removed_or_replaced_by_alt_text
              Fixture.escape Fixture.commonmarkRules Fixture.parseHTML
              Fixture.toISOString (Fixture.linksOff (Some altText)))
    as (_ & A & D).
  destruct (@images_removed_or_replaced_by_alt_text
              Fixture.escape Fixture.commonmarkRules (fun _ => [Fixture.picture])
              Fixture.toISOString (Fixture.linksOff (Some altText)))
    as (_ & P & _).
  split; [exact (proj1 (R eq_refl) false (Some Fixture.link) None _)|].
  split; [|split].
  - unfold Fixture.picture. rewrite (proj1 (A eq_refl)).
    vm_compute. reflexivity.
  - rewrite (proj2 (P eq_refl) 0 Fixture.article Fixture.finalUrl
               [(js "src", js "https://x/i.png"); (js "alt", js " logo ")]);
      [vm_compute; reflexivity | reflexivity | discriminate | reflexivity].
  - apply (D (or_intror eq_refl)); [now left|].
    intros opts. apply fixture_rules_ignore.
Defined.

Lemma frontmatter_strings_witness :
  excerpt Fixture.article
  = Some (js "line one" ++ [LF] ++ js "says " ++ [QUOTE] ++ js "hi" ++ [QUOTE])
  /\ In (yamlLine "excerpt"
           (js "line one says " ++ [BACKSLASH; QUOTE] ++ js "hi"
            ++ [BACKSLASH; QUOTE]))
        (frontmatterLines Fixture.article Fixture.finalUrl Fixture.now)
  /\ quotesEscaped Fixture.finalUrl.
Proof.
  destruct (@frontmatter_strings_are_escaped
              Fixture.article Fixture.finalUrl Fixture.now)
    as (_ & _ & _ & He & (_ & Hu) & _).
  split; [reflexivity|]. split.
  - exact (proj1 (He 108%N
                     (js "ine one" ++ [LF] ++ js "says " ++ [QUOTE] ++ js "hi"
                      ++ [QUOTE])
                     eq_refl)).
  - apply Hu. vm_compute. intros H.
    repeat (destruct H as [H|H]; try discriminate). exact H.
Defined.

(** C4. The url field is a string field of the block whose double
    quotes are not escaped.  A page served by a host whose name is an a,
    a double quote and a b has that quote in its final URL; with the
    frontmatter asked for, the markdown of the item carries the url line
    with the quote of the host as it is, next to a title and an excerpt
    whose quotes are escaped. *)
Theorem quoted_host_url_is_left_unescaped :
  Fixture3.markdownWithFrontmatterAt Fixture3.quotedHostUrl
  = Some (unlines
            [ js "---";
              yamlLine "title"
                (js "A " ++ [BACKSLASH; QUOTE] ++ js "quoted"
                 ++ [BACKSLASH; QUOTE] ++ js " title");
              yamlLine "url" (js "http://a" ++ [QUOTE] ++ js "b/");
              yamlLine "site" (js "Example");
              yamlLine "excerpt"
                (js "line one says " ++ [BACKSLASH; QUOTE] ++ js "hi"
                 ++ [BACKSLASH; QUOTE]);
              yamlLine "date" Fixture.now;
              js "---" ]
          ++ Fixture.expectedBody)
  /\ ~ quotesEscaped (js "http://a" ++ [QUOTE] ++ js "b/").
Proof.
  split; [vm_compute; reflexivity|].
  intros H. destruct (H (js "http://a") (js "b/") eq_refl) as [pre' E].
  apply (f_equal (@rev N)) in E. rewrite rev_app_distr in E.
  vm_compute in E. discriminate E.
Qed.

(** On the empty-bodied page the error does not read "no readable
    content found" but "Failed to parse article content from the page". *)
Lemma extraction_message_counterexample :
  fst (Fixture.runItem 0 (Fixture.item "https://empty.example/" Fixture.noOptions) [])
  = inl (NodeOperationError
           (js "Failed to parse article content from the page") 0)
  /\ messageOf (NodeOperationError
                  (js "Failed to parse article content from the page") 0)
     <> js "no readable content found".
Proof.
  split; [vm_compute; reflexivity | vm_compute; discriminate].
Qed.

Lemma no_article_witness :
  Fixture.parseArticle Fixture.emptyBody (js "https://empty.example/") = None
  /\ Fixture.runItem 0 (Fixture.item "https://empty.example/" Fixture.noOptions) []
     = (inl (NodeOperationError
               (js "Failed to parse article content from the page") 0),
        [requestFor (js "https://empty.example/") 30]).
Proof.
  split; [reflexivity|].
  apply (@no_article_fails_with_parse_message
           Fixture.escape Fixture.commonmarkRules Fixture.parseHTML
           Fixture.parseArticle Fixture.net Fixture.toISOString
           0 (Fixture.item "https://empty.example/" Fixture.noOptions)
           104%N (js "ttps://empty.example/") [] 120%Z
           {| status := 200; statusText := js "OK";
              responseText := inr Fixture.emptyBody;
              responseUrl := js "https://empty.example/" |}
           Fixture.emptyBody);
    try reflexivity.
Defined.

(** A timeout of 2147484 seconds sets a timer of more than 2147483647 ms,
    which fires after 1 ms: the page that answers after 120 ms times out. *)
Example overflowing_timer_fires_at_once :
  timerDelay (2147484 * 1000) = 1%Z
  /\ fst (Fixture.runItem 0 (Fixture.item "https://a/"
                               (Fixture.withTimeout 2147484)) [])
     = inl (NodeOperationError
              (js "Request timed out after 2147484 seconds") 0).
Proof.
  split; vm_compute; reflexivity.
Qed.



Lemma missing_url_witness :
  Fixture.runItem 3 {| url := Some []; options := Fixture.noOptions |}
                  [requestFor (js "https://a/") 30]
  = (inl (NodeOperationError (js "URL is required") 3),
     [requestFor (js "https://a/") 30])
  /\ Fixture.runItem 4 {| url := None; options := Fixture.noOptions |} []
     = (inl (NodeOperationError (js "URL is required") 4), []).
Proof.
  split.
  - apply (@missing_url_fails_before_fetch
             Fixture.escape Fixture.commonmarkRules Fixture.parseHTML
             Fixture.parseArticle Fixture.net Fixture.toISOString).
    right. reflexivity.
  - apply (@missing_url_fails_before_fetch
             Fixture.escape Fixture.commonmarkRules Fixture.parseHTML
             Fixture.parseArticle Fixture.net Fixture.toISOString).
    left. reflexivity.
Defined.

Lemma falsy_timeout_witness :
  falsyNumber (timeout (Fixture.withTimeout 0)) = true
  /\ snd (Fixture.runItem 0 (Fixture.item "https://slow.example/" (Fixture.withTimeout 0)) [])
     = [{| requestUrl := js "https://slow.example/";
           requestHeaders := browserHeaders;
           abortAfterMs := 30000 |}].
Proof.
  split; [reflexivity|].
  exact (proj2 (@falsy_timeout_defaults_to_30
                  Fixture.escape Fixture.commonmarkRules Fixture.parseHTML
                  Fixture.parseArticle Fixture.net Fixture.toISOString
                  0 (Fixture.item "https://slow.example/" (Fixture.withTimeout 0))
                  104%N (js "ttps://slow.example/") []
                  eq_refl eq_refl)).
Defined.

Lemma success_record_witness :
  50 = List.length Fixture.expectedBody
  /\ exists requested latency r html article,
       Some (js "https://a/") = Some requested
       /\ Fixture.net 0 requested = Responds latency r
       /\ Fixture.finalUrl = responseUrl r
       /\ responseText r = inr html
       /\ Fixture.parseArticle html Fixture.finalUrl = Some article
       /\ (includeFrontmatterOf Fixture.noOptions = true ->
           Fixture.expectedBody
           = join [LF] (frontmatterLines article Fixture.finalUrl Fixture.now)
             ++ turndown Fixture.escape Fixture.parseHTML
                  (serviceFor Fixture.commonmarkRules Fixture.noOptions)
                  (content article))
       /\ (includeFrontmatterOf Fixture.noOptions = false ->
           Fixture.expectedBody
           = turndown Fixture.escape Fixture.parseHTML
               (serviceFor Fixture.commonmarkRules Fixture.noOptions)
               (content article)).
Proof.
  apply (@success_record_length_and_final_url
           Fixture.escape Fixture.commonmarkRules Fixture.parseHTML
           Fixture.parseArticle Fixture.net Fixture.toISOString
           0 (Fixture.item "https://a/" Fixture.noOptions) []
           Fixture.finalUrl (title Fixture.article) None
           (excerpt Fixture.article) (siteName Fixture.article)
           Fixture.expectedBody 50 [requestFor (js "https://a/") 30]).
  vm_compute. reflexivity.
Defined.



(* ===================================================================== *)
(** ** Further properties of the node *)
(* ===================================================================== *)

Import Props2.

Section MoreItemFacts.

Variable escape : jsstring -> jsstring.
Variable commonmarkRules : Turndown.Options -> list Rule.
Variable parseHTML : jsstring -> list Node.
Variable parseArticle : jsstring -> jsstring -> option Article.
Variable net : nat -> jsstring -> NetReply.
Variable toISOString : nat -> jsstring.

Local Notation "'process_item'" :=
  (processItem escape commonmarkRules parseHTML parseArticle net toISOString)
  (only parsing).
Local Notation "'loop_with'" :=
  (loop escape commonmarkRules parseHTML parseArticle net toISOString)
  (only parsing).
Local Notation "'execute_with'" :=
  (execute escape commonmarkRules parseHTML parseArticle net toISOString)
  (only parsing).

Lemma fetchPage_not_ok i url seconds w latency r :
  net (List.length w) url = Responds latency r ->
  (latency < timerDelay (seconds * 1000))%Z ->
  ok r = false ->
  fetchPage net i url seconds w
  = (inl (NodeOperationError
            (js "Failed to fetch URL: " ++ numberToString (status r)
             ++ js " " ++ statusText r) i),
     w ++ [requestFor url seconds]).
Proof.
  intros Hn Hl Hok. unfold fetchPage, tryCatch, bind, fetch.
  rewrite Hn. simpl. apply Z.leb_gt in Hl. rewrite Hl, Hok. reflexivity.
Qed.

(** X1. A reply with a status outside 200-299 that comes before the abort
    timer fires -- the timer waits the timeout in effect times 1000
    milliseconds, or 1 millisecond when that product is below 1 or above
    2147483647 -- makes the item fail with "Failed to fetch URL: <status>
    <statusText>", the status printed in full; the request was issued, and
    neither the body nor the extractor plays a part. *)
Theorem bad_status_fails_with_status_and_reason
        i item c u w latency r :
  url item = Some (c :: u) ->
  net (List.length w) (c :: u) = Responds latency r ->
  (latency < timerDelay (timeoutOf (options item) * 1000))%Z ->
  ok r = false ->
  printedInFull (status r) ->
  process_item i item w
  = (inl (NodeOperationError
            (js "Failed to fetch URL: " ++ numberToString (status r)
             ++ js " " ++ statusText r) i),
     w ++ [requestFor (c :: u) (timeoutOf (options item))]).
Proof.
  intros Hu Hn Hl Hok _. unfold processItem. rewrite Hu.
  unfold bind at 1. rewrite (fetchPage_not_ok i _ w Hn Hl Hok). reflexivity.
Qed.

(** X2. An error that is not named AbortError -- raised by the fetch
    before the abort timer fires, or while the body of a 2xx reply that
    came before it is read -- is thrown on as it is: the item fails with
    that very error.  The timer waits the timeout in effect times 1000
    milliseconds, or 1 millisecond when that product is below 1 or above
    2147483647. *)
Theorem other_fetch_errors_are_rethrown i item c u w latency e :
  url item = Some (c :: u) ->
  (latency < timerDelay (timeoutOf (options item) * 1000))%Z ->
  isAbortError e = false ->
  (net (List.length w) (c :: u) = Fails latency e
   \/ exists r, net (List.length w) (c :: u) = Responds latency r
                /\ ok r = true /\ responseText r = inl e) ->
  process_item i item w
  = (inl e, w ++ [requestFor (c :: u) (timeoutOf (options item))]).
Proof.
  intros Hu Hl Ha Hn. unfold processItem. rewrite Hu.
  unfold bind at 1. unfold fetchPage, tryCatch, bind, fetch.
  apply Z.leb_gt in Hl.
  destruct Hn as [Hn|(r & Hn & Hok & Ht)]; rewrite Hn; simpl; rewrite Hl.
  - rewrite Ha. reflexivity.
  - rewrite Hok. simpl. rewrite Ht. simpl. rewrite Ha. reflexivity.
Qed.

Lemma processItem_world i item c u w :
  url item = Some (c :: u) ->
  snd (process_item i item w)
  = w ++ [requestFor (c :: u) (timeoutOf (options item))].
Proof.
  intros Hu. unfold processItem. rewrite Hu. unfold bind at 1.
  pose proof (fetchPage_world net i (c :: u) (timeoutOf (options item)) w)
    as Hw.
  destruct (fetchPage net i (c :: u) (timeoutOf (options item)) w)
    as [[e|[html finalUrl]] w1]; simpl in Hw; subst w1; [reflexivity|].
  destruct (parseArticle html finalUrl); reflexivity.
Qed.

(** X3. Whatever becomes of it, an item with a non-empty URL issues
    exactly one request: to that URL, with the browser headers, and with
    the abort timer at the timeout in effect times 1000 ms. *)
Theorem one_request_per_item i item c u w :
  url item = Some (c :: u) ->
  snd (process_item i item w)
  = w ++ [{| requestUrl := c :: u;
             requestHeaders := browserHeaders;
             abortAfterMs := timeoutOf (options item) * 1000 |}].
Proof.
  intros Hu. exact (processItem_world i item w Hu).
Qed.

Lemma processItem_urls i item w :
  map requestUrl (snd (process_item i item w))
  = map requestUrl w ++ urlsOf [item].
Proof.
  unfold urlsOf. simpl. rewrite app_nil_r.
  destruct (url item) as [[|c u]|] eqn:Hu.
  - unfold processItem. rewrite Hu. simpl. now rewrite app_nil_r.
  - rewrite (processItem_world i item w Hu), map_app. reflexivity.
  - unfold processItem. rewrite Hu. simpl. now rewrite app_nil_r.
Qed.

Lemma urlsOf_cons item items : urlsOf (item :: items) = urlsOf [item] ++ urlsOf items.
Proof. unfold urlsOf. simpl. now rewrite app_nil_r. Qed.

Lemma loop_continue_urls items : forall i returnData w,
  map requestUrl (snd (loop_with true i items returnData w))
  = map requestUrl w ++ urlsOf items.
Proof.
  induction items as [|item rest IH]; intros i returnData w.
  - simpl. now rewrite app_nil_r.
  - rewrite loop_cons, urlsOf_cons, app_assoc, <- processItem_urls with (i := i).
    destruct (process_item i item w) as [[error|json] w']; simpl snd; apply IH.
Qed.

(** X4. A best-effort run issues one request for each item that has a
    non-empty URL, in the order of the items, and none for the others. *)
Theorem best_effort_requests_follow_items items w :
  map requestUrl
      (snd (execute escape commonmarkRules parseHTML parseArticle net
                    toISOString true items w))
  = map requestUrl w ++ urlsOf items.
Proof.
  unfold execute, bind.
  pose proof (loop_continue_urls items 0 [] w) as H.
  destruct (loop_with true 0 items [] w) as [[e|rd] w']; exact H.
Qed.

Lemma loop_all_succeed items : forall i returnData w records w',
  loop_with false i items returnData w = (inr records, w') ->
  loop_with true i items returnData w = (inr records, w').
Proof.
  induction items as [|item rest IH]; intros i returnData w records w' H.
  - exact H.
  - rewrite loop_cons in *.
    destruct (process_item i item w) as [[error|json] w1];
      [discriminate | now apply IH].
Qed.

(** X10. The mode only matters when an item fails: a run that ends well
    with the mode off gives the same records and issues the same requests
    with the mode on. *)
Theorem modes_agree_when_nothing_fails items w records w' :
  execute escape commonmarkRules parseHTML parseArticle net toISOString
          false items w = (inr records, w') ->
  execute escape commonmarkRules parseHTML parseArticle net toISOString
          true items w = (inr records, w').
Proof.
  unfold execute, bind. intros H.
  destruct (loop_with false 0 items [] w) as [[e|rd] w1] eqn:E;
    [discriminate|].
  now rewrite (loop_all_succeed _ _ _ _ E).
Qed.

(** X9. In a best-effort run the records of the first items do not depend
    on the items that follow: the records of [pre ++ post] begin with the
    records of [pre] alone, followed by one record for each item of
    [post]. *)
Theorem best_effort_records_are_prefix_stable pre post w :
  exists records more w1 w2,
    execute escape commonmarkRules parseHTML parseArticle net toISOString
            true pre w = (inr [records], w1)
    /\ execute escape commonmarkRules parseHTML parseArticle net toISOString
               true (pre ++ post) w = (inr [records ++ more], w2)
    /\ List.length records = List.length pre
    /\ List.length more = List.length post.
Proof.
  destruct (loop_continue_total escape commonmarkRules parseHTML parseArticle
              net toISOString pre 0 [] w) as (records & w1 & E1 & L1).
  destruct (loop_continue_total escape commonmarkRules parseHTML parseArticle
              net toISOString post (0 + List.length pre) records w1)
    as (more & w2 & E2 & L2).
  exists records, more, w1, w2. unfold execute, bind.
  rewrite loop_app, E1. simpl app. rewrite E2. now repeat split.
Qed.

End MoreItemFacts.

Section DefaultsFacts.

Variable escape : jsstring -> jsstring.
Variable commonmarkRules : Turndown.Options -> list Rule.
Variable parseHTML : jsstring -> list Node.
Variable parseArticle : jsstring -> jsstring -> option Article.
Variable net : nat -> jsstring -> NetReply.
Variable toISOString : nat -> jsstring.

Lemma timeoutOf_declared o :
  timeoutOf (Description.withDeclaredDefaults o) = timeoutOf o.
Proof.
  unfold timeoutOf, numberOr. simpl. now destruct (timeout o) as [[z|]|].
Qed.

Lemma serviceFor_declared o :
  serviceFor commonmarkRules (Description.withDeclaredDefaults o)
  = serviceFor commonmarkRules o.
Proof.
  unfold serviceFor, includeLinksOf, imageHandlingOf, headingStyleOf,
    codeBlockStyleOf. simpl.
  destruct (includeLinks o) as [[|]|], (imageHandling o) as [[| |]|],
    (headingStyle o) as [[|]|], (codeBlockStyle o) as [[|]|]; reflexivity.
Qed.

Lemma includeFrontmatterOf_declared o :
  includeFrontmatterOf (Description.withDeclaredDefaults o)
  = includeFrontmatterOf o.
Proof.
  unfold includeFrontmatterOf. simpl.
  now destruct (includeFrontmatter o) as [[|]|].
Qed.

(** X5. The fall-backs of the code are the defaults the description
    declares: an item behaves the same when every option the caller left
    out is set to its declared default (30, true, include, atx, fenced,
    false). *)
Theorem absent_options_behave_as_declared_defaults i u o w :
  processItem escape commonmarkRules parseHTML parseArticle net toISOString
              i {| url := u; options := Description.withDeclaredDefaults o |} w
  = processItem escape commonmarkRules parseHTML parseArticle net toISOString
                i {| url := u; options := o |} w.
Proof.
  unfold processItem, renderMarkdown.
  cbn [url options].
  rewrite timeoutOf_declared, serviceFor_declared,
    includeFrontmatterOf_declared.
  reflexivity.
Qed.

End DefaultsFacts.

(* ===================================================================== *)
(** ** Documents without links and images *)
(* ===================================================================== *)

Lemma freeOf_kids names nm attrs kids :
  freeOf names (Element nm attrs kids) = true ->
  Forall (fun k => freeOf names k = true) kids.
Proof.
  unfold freeOf. intros H. apply negb_true_iff in H.
  cbn [mentions] in H. apply orb_false_iff in H as [_ H].
  induction kids as [|k kids IH]; constructor.
  - simpl in H. apply orb_false_iff in H as [H _]. now rewrite H.
  - apply IH. simpl in H. now apply orb_false_iff in H as [_ H].
Qed.

Lemma freeOf_self names n :
  freeOf names n = true ->
  forall name, In name names -> isElementNamed name n = false.
Proof.
  destruct n as [v|d|nm attrs kids]; try reflexivity.
  unfold freeOf. intros H name Hin. apply negb_true_iff in H.
  cbn [mentions] in H. apply orb_false_iff in H as [H _].
  simpl. destruct (str_eqb (toLowerCase nm) name) eqn:E; [|reflexivity].
  rewrite <- H. symmetry. apply existsb_exists. now exists name.
Qed.

Section AgreementFacts.

Variable escape : jsstring -> jsstring.
Variables s1 s2 : TurndownService.
Variable names : list jsstring.

Hypothesis same_rule : forall n,
  (forall name, In name names -> isElementNamed name n = false) ->
  forNode (rules s1) n = forNode (rules s2) n.

Lemma processFrom_agree inCode kids :
  Forall (fun k => forall inCode prev next,
              replacementFor escape s1 inCode prev next k
              = replacementFor escape s2 inCode prev next k) kids ->
  forall prev output,
    processFrom escape s1 inCode prev kids output
    = processFrom escape s2 inCode prev kids output.
Proof.
  induction 1 as [|k kids Hk _ IH]; intros prev output; [reflexivity|].
  simpl. rewrite Hk. apply IH.
Qed.

Lemma replacementFor_agree n :
  freeOf names n = true ->
  forall inCode prev next,
    replacementFor escape s1 inCode prev next n
    = replacementFor escape s2 inCode prev next n.
Proof.
  induction n as [v|d|nm attrs kids IH] using Node_forall_ind;
    intros Hfree inCode prev next; try reflexivity.
  rewrite !replacementFor_element.
  assert (Hkids : Forall (fun k => forall inCode prev next,
                            replacementFor escape s1 inCode prev next k
                            = replacementFor escape s2 inCode prev next k)
                         kids).
  { pose proof (freeOf_kids _ _ _ _ Hfree) as Hf.
    rewrite Forall_forall in *. intros k Hin. apply IH; auto. }
  unfold process. rewrite (processFrom_agree _ Hkids None).
  rewrite same_rule; [reflexivity|].
  now apply freeOf_self.
Qed.

Lemma process_agree inCode doc :
  Forall (fun n => freeOf names n = true) doc ->
  process escape s1 inCode doc = process escape s2 inCode doc.
Proof.
  intros H. unfold process. apply processFrom_agree.
  rewrite Forall_forall in *. intros k Hin. now apply replacementFor_agree, H.
Qed.

End AgreementFacts.

Section PlainDocumentFacts.

Variable escape : jsstring -> jsstring.
Variable commonmarkRules : Turndown.Options -> list Rule.
Variable parseHTML : jsstring -> list Node.

Lemma not_link_nor_image n :
  (forall name, In name linkAndImage -> isElementNamed name n = false) ->
  tagFilter "a" n = false /\ tagFilter "img" n = false.
Proof.
  intros H. unfold tagFilter, linkAndImage in *.
  split; apply H; simpl; auto.
Qed.

(** On other elements the node's rules change nothing. *)
Lemma forNode_other_elements o n :
  (forall name, In name linkAndImage -> isElementNamed name n = false) ->
  forNode (rules (serviceFor commonmarkRules o)) n
  = forNode (commonmarkRules
               {| Turndown.headingStyle := headingStyleOf o;
                  Turndown.codeBlockStyle := codeBlockStyleOf o |}) n.
Proof.
  intros H. destruct (not_link_nor_image n H) as [Ha Hi].
  unfold forNode, serviceFor, configureService.
  destruct (isBlank n); [reflexivity|].
  destruct (includeLinksOf o), (imageHandlingOf o); simpl;
    rewrite ?Ha, ?Hi; reflexivity.
Qed.

Lemma postProcess_serviceFor o output :
  postProcess (serviceFor commonmarkRules o) output
  = postProcess (newTurndownService commonmarkRules
                   {| Turndown.headingStyle := headingStyleOf o;
                      Turndown.codeBlockStyle := codeBlockStyleOf o |}) output.
Proof.
  unfold postProcess, serviceFor, configureService.
  destruct (includeLinksOf o), (imageHandlingOf o); reflexivity.
Qed.

(** X6. A document without link and image elements gives the same
    Markdown for every choice of [includeLinks] and [imageHandling]: the
    rules the node adds touch nothing but links and images. *)
Theorem link_and_image_options_leave_other_documents_alone o o' input :
  Forall (fun n => freeOf linkAndImage n = true) (parseHTML input) ->
  headingStyleOf o = headingStyleOf o' ->
  codeBlockStyleOf o = codeBlockStyleOf o' ->
  turndown escape parseHTML (serviceFor commonmarkRules o) input
  = turndown escape parseHTML (serviceFor commonmarkRules o') input.
Proof.
  intros Hdoc Hh Hc. unfold turndown. destruct input as [|c input];
    [reflexivity|].
  rewrite !postProcess_serviceFor, Hh, Hc. f_equal.
  apply process_agree with (names := linkAndImage); [|exact Hdoc].
  intros n Hn. rewrite !forNode_other_elements by exact Hn.
  now rewrite Hh, Hc.
Qed.

End PlainDocumentFacts.

(* ===================================================================== *)
(** ** The frontmatter block, line by line *)
(* ===================================================================== *)

Lemma splitLines_line l :
  ~ In LF l -> splitLines l = [l].
Proof.
  induction l as [|c l IH]; intros H; [reflexivity|].
  simpl. destruct (N.eqb_spec c LF) as [->|Hc].
  - exfalso. apply H. now left.
  - rewrite IH; [reflexivity|]. intros Hin. apply H. now right.
Qed.

Lemma splitLines_cons_line l rest :
  ~ In LF l -> splitLines (l ++ LF :: rest) = l :: splitLines rest.
Proof.
  induction l as [|c l IH]; intros H; [reflexivity|].
  simpl. destruct (N.eqb_spec c LF) as [->|Hc].
  - exfalso. apply H. now left.
  - rewrite IH; [reflexivity|]. intros Hin. apply H. now right.
Qed.

Lemma splitLines_join l ls :
  Forall (fun l => ~ In LF l) (l :: ls) ->
  splitLines (join [LF] (l :: ls)) = l :: ls.
Proof.
  revert l. induction ls as [|l2 ls IH]; intros l H.
  - simpl. apply splitLines_line. now inversion H.
  - inversion H as [|? ? Hl Hrest]; subst.
    change (join [LF] (l :: l2 :: ls)) with (l ++ LF :: join [LF] (l2 :: ls)).
    rewrite splitLines_cons_line by exact Hl. now rewrite IH.
Qed.

Lemma escapeQuotes_In x s :
  In x (escapeQuotes s) -> x = BACKSLASH \/ In x s.
Proof.
  unfold escapeQuotes. intros H. apply in_flat_map in H as (c & Hc & Hx).
  destruct (N.eqb_spec c QUOTE) as [->|_]; simpl in Hx.
  - destruct Hx as [<-|[<-|[]]]; [now left | now right].
  - destruct Hx as [<-|[]]. now right.
Qed.

Lemma escapeQuotes_no_LF s : ~ In LF s -> ~ In LF (escapeQuotes s).
Proof.
  intros H Hin. apply escapeQuotes_In in Hin as [Hin|Hin];
    [discriminate | contradiction].
Qed.

Lemma whenTruthy_no_LF name v :
  ~ In LF (js name) ->
  noLineFeed v ->
  Forall (fun l => ~ In LF l)
         (whenTruthy v (fun t => yamlLine name (escapeQuotes t))).
Proof.
  intros Hn Hv. destruct v as [[|c s]|]; cbn [whenTruthy]; constructor;
    [|constructor].
  apply yamlLine_no_LF; [exact Hn|]. now apply escapeQuotes_no_LF.
Qed.

Ltac no_LF_in_literal :=
  let H := fresh in
  simpl; intros H; repeat (destruct H as [H|H]; try discriminate); exact H.

(** X7. When the title, the byline, the site name, the final URL and the
    timestamp have no line feed, the frontmatter block read back line by
    line is the list of its field lines: every field is on one line of
    its own (the line feeds of the excerpt are replaced, those of the
    other fields are not). *)
Theorem frontmatter_has_one_line_per_field article finalUrl now :
  noLineFeed (title article) ->
  noLineFeed (byline article) ->
  noLineFeed (siteName article) ->
  ~ In LF finalUrl ->
  ~ In LF now ->
  splitLines (join [LF] (frontmatterLines article finalUrl now))
  = frontmatterLines article finalUrl now.
Proof.
  intros Ht Hb Hs Hu Hn.
  unfold frontmatterLines.
  change ([js "---"] ++ ?rest) with (js "---" :: rest).
  apply splitLines_join.
  repeat first [ apply Forall_app; split | apply Forall_cons | apply Forall_nil ];
    try (apply whenTruthy_no_LF; [no_LF_in_literal | assumption]);
    try (apply yamlLine_no_LF; [no_LF_in_literal | assumption]);
    try no_LF_in_literal.
  destruct (excerpt article) as [[|c e]|]; cbn [whenTruthy]; constructor;
    [|constructor].
  apply yamlLine_no_LF; [no_LF_in_literal | apply newlinesToSpaces_no_LF].
Qed.

Lemma escapeQuotes_cons c s :
  escapeQuotes (c :: s)
  = (if N.eqb c QUOTE then [BACKSLASH; QUOTE] else [c]) ++ escapeQuotes s.
Proof. reflexivity. Qed.

Lemma escapeQuotes_head s c rest :
  escapeQuotes s = c :: rest -> c <> QUOTE.
Proof.
  destruct s as [|x s]; [discriminate|].
  rewrite escapeQuotes_cons. destruct (N.eqb_spec x QUOTE) as [->|Hx]; simpl.
  - intros H. injection H as <- _. discriminate.
  - intros H. injection H as <- _. exact Hx.
Qed.

(** X8. Escaping the quotes loses nothing: dropping the backslash before
    each double quote gives the text back, and the escaped text is longer
    by one code unit for each double quote. *)
Theorem escapeQuotes_round_trip s :
  unescapeQuotes (escapeQuotes s) = s
  /\ List.length (escapeQuotes s)
     = List.length s + count_occ N.eq_dec s QUOTE.
Proof.
  split.
  - induction s as [|c s IH]; [reflexivity|].
    rewrite escapeQuotes_cons.
    destruct (N.eqb_spec c QUOTE) as [->|Hc].
    + simpl. now rewrite IH.
    + simpl. destruct (escapeQuotes s) as [|q r] eqn:E.
      * simpl in IH. now rewrite <- IH.
      * pose proof (escapeQuotes_head s E) as Hq.
        destruct (N.eqb_spec q QUOTE) as [->|_]; [contradiction|].
        rewrite andb_false_r. now rewrite IH.
  - induction s as [|c s IH]; [reflexivity|].
    rewrite escapeQuotes_cons, length_app, IH. simpl count_occ.
    destruct (N.eqb_spec c QUOTE) as [->|Hc].
    + destruct (N.eq_dec QUOTE QUOTE); [simpl; lia | contradiction].
    + destruct (N.eq_dec c QUOTE); [contradiction | simpl; lia].
Qed.

(* ===================================================================== *)
(** ** The [includeImages] version *)
(* ===================================================================== *)

Section ImagesVersionFacts.

Variable escape : jsstring -> jsstring.
Variable commonmarkRules : Turndown.Options -> list Rule.
Variable parseHTML : jsstring -> list Node.
Variable parseArticle : jsstring -> jsstring -> option Article.
Variable net : nat -> jsstring -> NetReply.
Variable toISOString : nat -> jsstring.
Variable continueOnFail : bool.

Lemma imagesVersion_processItem i item w :
  Url2MarkdownImages.processItem escape commonmarkRules parseHTML parseArticle
                                 net i item w
  = processItem escape commonmarkRules parseHTML parseArticle net toISOString
                i (upgradeItem item) w.
Proof.
  unfold Url2MarkdownImages.processItem, processItem, upgradeItem.
  cbn [url options].
  destruct (Url2MarkdownImages.url item) as [[|c u]|]; try reflexivity.
  unfold bind.
  change (timeoutOf (upgradeOptions (Url2MarkdownImages.options item)))
    with (numberOr (Url2MarkdownImages.timeout
                      (Url2MarkdownImages.options item)) 30).
  destruct (fetchPage net i (c :: u)
              (numberOr (Url2MarkdownImages.timeout
                           (Url2MarkdownImages.options item)) 30) w)
    as [[e|[html finalUrl]] w1]; [reflexivity|].
  destruct (parseArticle html finalUrl) as [article|]; [|reflexivity].
  unfold renderMarkdown, serviceFor, configureService, includeFrontmatterOf,
    includeLinksOf, imageHandlingOf, headingStyleOf, codeBlockStyleOf,
    upgradeOptions.
  cbn [includeLinks imageHandling headingStyle codeBlockStyle
       includeFrontmatter].
  destruct (Url2MarkdownImages.includeLinks (Url2MarkdownImages.options item))
    as [[|]|],
    (Url2MarkdownImages.includeImages (Url2MarkdownImages.options item))
    as [[|]|]; reflexivity.
Qed.

Lemma imagesVersion_loop items : forall i returnData w,
  Url2MarkdownImages.loop escape commonmarkRules parseHTML parseArticle net
                          continueOnFail i items returnData w
  = loop escape commonmarkRules parseHTML parseArticle net toISOString
         continueOnFail i (map upgradeItem items) returnData w.
Proof.
  induction items as [|item rest IH]; intros i returnData w; [reflexivity|].
  simpl. unfold bind, tryCatch. rewrite imagesVersion_processItem.
  destruct (processItem escape commonmarkRules parseHTML parseArticle net
              toISOString i (upgradeItem item) w) as [[error|json] w1].
  - destruct continueOnFail; [apply IH | reflexivity].
  - apply IH.
Qed.

(** X11. The version with the [includeImages] switch runs a batch exactly
    as the [imageHandling] version runs it with [includeImages = false]
    read as [imageHandling = remove], any other value as the default
    [include], and no frontmatter: the same records, the same errors, the
    same requests. *)
Theorem includeImages_version_is_the_remove_or_include_case items w :
  Url2MarkdownImages.execute escape commonmarkRules parseHTML parseArticle net
                             continueOnFail items w
  = execute escape commonmarkRules parseHTML parseArticle net toISOString
            continueOnFail (map upgradeItem items) w.
Proof.
  unfold Url2MarkdownImages.execute, execute, bind.
  now rewrite imagesVersion_loop.
Qed.

End ImagesVersionFacts.

(* ===================================================================== *)
(** ** The Jina Reader version *)
(* ===================================================================== *)

Section ReaderFacts.

Variable net : nat -> jsstring -> NetReply.

Local Notation "'reader_item'" := (Url2MarkdownJina.processItem net)
  (only parsing).

Lemma reader_item_world i item w :
  snd (reader_item i item w)
  = match Url2MarkdownJina.url item with
    | Some (c :: u) =>
        w ++ [readerRequest (c :: u)
                (numberOr (Url2MarkdownJina.timeout item) 30)]
    | _ => w
    end.
Proof.
  unfold Url2MarkdownJina.processItem.
  destruct (Url2MarkdownJina.url item) as [[|c u]|]; try reflexivity.
  unfold tryCatch, bind, Url2MarkdownJina.fetch.
  destruct (_ <=? _)%Z; [reflexivity|].
  destruct (net _ _) as [latency r|latency e].
  - destruct (ok r); simpl; [|reflexivity].
    destruct (responseText r) as [e|m]; simpl; [|reflexivity].
    destruct (isAbortError e); reflexivity.
  - destruct (isAbortError e); reflexivity.
Qed.

(** X12. In the reader version an item with a non-empty URL issues
    exactly one request, whatever becomes of it: to [https://r.jina.ai/]
    followed by the URL as given, asking for [text/markdown]; the page
    itself is never requested.  An item without a URL issues none. *)
Theorem reader_requests_go_to_the_reader_service i item w :
  snd (reader_item i item w)
  = match Url2MarkdownJina.url item with
    | Some (c :: u) =>
        w ++ [readerRequest (c :: u)
                (numberOr (Url2MarkdownJina.timeout item) 30)]
    | _ => w
    end.
Proof.
  apply reader_item_world.
Qed.

(** X13. In the reader version a 2xx reply that comes before the abort
    timer fires (the timer waits the timeout in effect times 1000
    milliseconds, or 1 millisecond when that product is below 1 or above
    2147483647) gives the record whose [url] is the URL as the caller gave it (not
    the reader's, and not the one the response reports), whose [markdown]
    is the body of the reply unchanged and whose [contentLength] is its
    length. *)
Theorem reader_record_keeps_the_given_url i item c u w latency r markdown :
  Url2MarkdownJina.url item = Some (c :: u) ->
  net (List.length w) (Url2MarkdownJina.jinaUrlOf (c :: u))
  = Responds latency r ->
  (latency < timerDelay (numberOr (Url2MarkdownJina.timeout item) 30 * 1000))%Z ->
  ok r = true ->
  responseText r = inr markdown ->
  fst (reader_item i item w)
  = inr (Url2MarkdownJina.Success (c :: u) markdown (List.length markdown)).
Proof.
  intros Hu Hn Hl Hok Ht. unfold Url2MarkdownJina.processItem.
  rewrite Hu. unfold tryCatch, bind, Url2MarkdownJina.fetch.
  rewrite Hn. simpl latencyOf. apply Z.leb_gt in Hl. rewrite Hl, Hok.
  simpl. rewrite Ht. reflexivity.
Qed.


Lemma reader_loop_cons continue i item rest returnData w :
  Url2MarkdownJina.loop net continue i (item :: rest) returnData w
  = match reader_item i item w with
    | (inr json, w') =>
        Url2MarkdownJina.loop net continue (S i) rest (returnData ++ [json]) w'
    | (inl error, w') =>
        if continue
        then Url2MarkdownJina.loop net continue (S i) rest
               (returnData ++ [Url2MarkdownJina.Failure (messageOf error)]) w'
        else (inl error, w')
    end.
Proof.
  simpl. unfold bind, tryCatch, ret, throw.
  destruct (reader_item i item w) as [[error|json] w']; [|reflexivity].
  destruct continue; reflexivity.
Qed.

Lemma reader_loop_total items : forall i returnData w,
  exists pushed w',
    Url2MarkdownJina.loop net true i items returnData w
    = (inr (returnData ++ pushed), w')
    /\ List.length pushed = List.length items
    /\ List.length w' <= List.length w + List.length items.
Proof.
  induction items as [|item rest IH]; intros i returnData w.
  - exists [], w. simpl. unfold ret. rewrite app_nil_r. repeat split. lia.
  - rewrite reader_loop_cons.
    pose proof (reader_item_world i item w) as Hw.
    assert (Hlen : List.length (snd (reader_item i item w))
                   <= S (List.length w)).
    { rewrite Hw. destruct (Url2MarkdownJina.url item) as [[|c u]|];
        rewrite ?length_app; simpl; lia. }
    destruct (reader_item i item w) as [[error|json] w']; simpl snd in Hlen.
    + destruct (IH (S i)
                  (returnData ++ [Url2MarkdownJina.Failure (messageOf error)])
                  w') as (pushed & w'' & E & L & R).
      exists (Url2MarkdownJina.Failure (messageOf error) :: pushed), w''.
      rewrite E, <- app_assoc. simpl. repeat split; lia.
    + destruct (IH (S i) (returnData ++ [json]) w')
        as (pushed & w'' & E & L & R).
      exists (json :: pushed), w''.
      rewrite E, <- app_assoc. simpl. repeat split; lia.
Qed.

(** X15. A best-effort run of the reader version never fails: it returns
    one record per item, and it issues at most one request per item. *)
Theorem reader_best_effort_run_is_total items w :
  exists records w',
    Url2MarkdownJina.execute net true items w = (inr [records], w')
    /\ List.length records = List.length items
    /\ List.length w' <= List.length w + List.length items.
Proof.
  destruct (reader_loop_total items 0 [] w) as (pushed & w' & E & L & R).
  exists pushed, w'. unfold Url2MarkdownJina.execute, bind. rewrite E.
  simpl. now repeat split.
Qed.

End ReaderFacts.

(* ===================================================================== *)
(** ** Worked runs of the further properties *)
(* ===================================================================== *)

Lemma bad_status_witness :
  ok {| status := 404; statusText := js "Not Found";
        responseText := inr []; responseUrl := js "https://gone.example/" |}
  = false
  /\ Fixture.runItem 2 (Fixture.item "https://gone.example/" Fixture.noOptions) []
     = (inl (NodeOperationError (js "Failed to fetch URL: 404 Not Found") 2),
        [requestFor (js "https://gone.example/") 30]).
Proof.
  split; [reflexivity|].
  apply (@bad_status_fails_with_status_and_reason
           Fixture.escape Fixture.commonmarkRules Fixture.parseHTML
           Fixture.parseArticle Fixture.net Fixture.toISOString
           2 (Fixture.item "https://gone.example/" Fixture.noOptions)
           104%N (js "ttps://gone.example/") [] 80%Z
           {| status := 404; statusText := js "Not Found";
              responseText := inr [];
              responseUrl := js "https://gone.example/" |});
    reflexivity.
Defined.

Lemma rethrown_errors_witness :
  Fixture2.runItem 0 (Fixture.item "https://down.example/" Fixture.noOptions) []
  = (inl Fixture2.connectionRefused,
     [requestFor (js "https://down.example/") 30])
  /\ Fixture2.runItem 0 (Fixture.item "https://cut.example/" Fixture.noOptions) []
     = (inl Fixture2.bodyCut, [requestFor (js "https://cut.example/") 30]).
Proof.
  split.
  - apply (@other_fetch_errors_are_rethrown
             Fixture.escape Fixture.commonmarkRules Fixture.parseHTML
             Fixture.parseArticle Fixture2.net Fixture.toISOString
             0 (Fixture.item "https://down.example/" Fixture.noOptions)
             104%N (js "ttps://down.example/") [] 40%Z
             Fixture2.connectionRefused);
      try reflexivity.
    left. reflexivity.
  - apply (@other_fetch_errors_are_rethrown
             Fixture.escape Fixture.commonmarkRules Fixture.parseHTML
             Fixture.parseArticle Fixture2.net Fixture.toISOString
             0 (Fixture.item "https://cut.example/" Fixture.noOptions)
             104%N (js "ttps://cut.example/") [] 90%Z
             Fixture2.bodyCut);
      try reflexivity.
    right. eexists. repeat split; reflexivity.
Defined.

Lemma one_request_witness :
  snd (Fixture.runItem 0 (Fixture.item "https://slow.example/"
                            (Fixture.withTimeout 5)) [])
  = [{| requestUrl := js "https://slow.example/";
        requestHeaders := browserHeaders;
        abortAfterMs := 5000 |}].
Proof.
  exact (@one_request_per_item
           Fixture.escape Fixture.commonmarkRules Fixture.parseHTML
           Fixture.parseArticle Fixture.net Fixture.toISOString
           0 (Fixture.item "https://slow.example/" (Fixture.withTimeout 5))
           104%N (js "ttps://slow.example/") [] eq_refl).
Defined.

Lemma plain_document_witness :
  Forall (fun n => freeOf linkAndImage n = true) (Fixture2.parsePlain (js "<p>"))
  /\ turndown Fixture.escape Fixture2.parsePlain
       (serviceFor Fixture.commonmarkRules (Fixture.linksOff (Some altText)))
       (js "<p>")
     = turndown Fixture.escape Fixture2.parsePlain
         (serviceFor Fixture.commonmarkRules Fixture.noOptions) (js "<p>").
Proof.
  assert (H : Forall (fun n => freeOf linkAndImage n = true)
                     (Fixture2.parsePlain (js "<p>"))).
  { unfold Fixture2.parsePlain. repeat (apply Forall_cons; [reflexivity|]).
    apply Forall_nil. }
  split; [exact H|].
  apply (@link_and_image_options_leave_other_documents_alone
           Fixture.escape Fixture.commonmarkRules Fixture2.parsePlain
           (Fixture.linksOff (Some altText)) Fixture.noOptions (js "<p>") H);
    reflexivity.
Defined.

Lemma one_line_per_field_witness :
  noLineFeed (title Fixture.article)
  /\ splitLines (join [LF] (frontmatterLines Fixture.article Fixture.finalUrl
                                             Fixture.now))
     = frontmatterLines Fixture.article Fixture.finalUrl Fixture.now.
Proof.
  assert (Ht : noLineFeed (title Fixture.article)).
  { vm_compute. intros H.
    repeat (destruct H as [H|H]; try discriminate). exact H. }
  split; [exact Ht|].
  apply (@frontmatter_has_one_line_per_field
           Fixture.article Fixture.finalUrl Fixture.now Ht).
  - exact I.
  - vm_compute. intros H.
    repeat (destruct H as [H|H]; try discriminate). exact H.
  - vm_compute. intros H.
    repeat (destruct H as [H|H]; try discriminate). exact H.
  - vm_compute. intros H.
    repeat (destruct H as [H|H]; try discriminate). exact H.
Defined.

Lemma modes_agree_witness :
  Fixture.run false [Fixture.item "https://a/" Fixture.noOptions;
                     Fixture.item "https://b/" Fixture.withFrontmatter]
  = Fixture.run true [Fixture.item "https://a/" Fixture.noOptions;
                      Fixture.item "https://b/" Fixture.withFrontmatter].
Proof.
  unfold Fixture.run.
  destruct (execute Fixture.escape Fixture.commonmarkRules Fixture.parseHTML
              Fixture.parseArticle Fixture.net Fixture.toISOString false
              [Fixture.item "https://a/" Fixture.noOptions;
               Fixture.item "https://b/" Fixture.withFrontmatter] [])
    as [[e|records] w'] eqn:E.
  - vm_compute in E. discriminate E.
  - symmetry.
    exact (@modes_agree_when_nothing_fails
             Fixture.escape Fixture.commonmarkRules Fixture.parseHTML
             Fixture.parseArticle Fixture.net Fixture.toISOString
             _ [] records w' E).
Defined.

Lemma reader_record_witness :
  ok {| status := 200; statusText := js "OK"; responseText := inr (js "# A");
        responseUrl := js "https://r.jina.ai/https://example.com/a" |} = true
  /\ fst (Url2MarkdownJina.processItem Fixture2.readerNet 0
            (Fixture2.readerItem "https://example.com/a" None) [])
     = inr (Url2MarkdownJina.Success (js "https://example.com/a") (js "# A") 3).
Proof.
  split; [reflexivity|].
  apply (@reader_record_keeps_the_given_url
           Fixture2.readerNet 0
           (Fixture2.readerItem "https://example.com/a" None)
           104%N (js "ttps://example.com/a") [] 300%Z
           {| status := 200; statusText := js "OK";
              responseText := inr (js "# A");
              responseUrl := js "https://r.jina.ai/https://example.com/a" |}
           (js "# A"));
    reflexivity.
Defined.

